(** * Adafruit SGP30 driver: checksum, framing and command sequencing

    A shallow embedding of [adafruit_sgp30.py].  Python integers are
    unbounded, so they are modelled by [Z] and the bit operators of the
    source ([<<], [>>], [&], [|], [^]) by [Z.shiftl], [Z.shiftr],
    [Z.land], [Z.lor], [Z.lxor].  The I2C device and [time.sleep] are
    external: the driver is written over a [Transport], and every
    interaction with it is recorded in an event log.  The delays are
    the decimal literals of the source, in seconds, read as rationals. *)

From Stdlib Require Import String ZArith List QArith Lia Bool.
Import ListNotations.

Local Open Scope Z_scope.

(** ** Constants of the module *)

Definition SGP30_DEFAULT_I2C_ADDR : Z := 0x58.
Definition SGP30_FEATURESET : Z := 0x0020.
Definition SGP30_CRC8_POLYNOMIAL : Z := 0x31.
Definition SGP30_CRC8_INIT : Z := 0xFF.
Definition SGP30_WORD_LEN : nat := 2.

(** ** The checksum, as the source computes it

    [crc] is a Python integer: inside the loops it is never masked and
    grows by one bit per iteration; only the returned value is masked. *)

Module Crc.

(** One pass of the body of [for i in range(8)]. *)
Definition crc_shift (crc : Z) : Z :=
  if negb (Z.land crc 0x80 =? 0)
  then Z.lxor (Z.shiftl crc 1) SGP30_CRC8_POLYNOMIAL
  else Z.shiftl crc 1.

(** One pass of the body of [for byte in data]. *)
Definition crc_byte (crc byte : Z) : Z :=
  Nat.iter 8 crc_shift (Z.lxor crc byte).

Definition sensirion_common_generate_crc (data : list Z) : Z :=
  Z.land (fold_left crc_byte data SGP30_CRC8_INIT) 0xFF.

(** *** The checksum, as the specification words it

    An 8-bit accumulator starting at 0xFF; for each byte, XOR it in and
    do eight rounds of "if the high bit is set, shift left and XOR with
    0x31, masked to 8 bits; else shift left, masked to 8 bits". *)

Definition spec_round (acc : Z) : Z :=
  if Z.testbit acc 7
  then Z.land (Z.lxor (Z.shiftl acc 1) 0x31) 0xFF
  else Z.land (Z.shiftl acc 1) 0xFF.

Definition spec_byte (acc byte : Z) : Z :=
  Nat.iter 8 spec_round (Z.lxor acc byte).

Definition spec_crc8 (data : list Z) : Z :=
  fold_left spec_byte data 0xFF.

End Crc.
Import Crc.

(** ** Python values and exceptions *)

Definition is_byte (b : Z) : Prop := 0 <= b < 256.
Definition is_word16 (w : Z) : Prop := 0 <= w < 65536.

(** The source raises [RuntimeError] with three different messages; the
    other constructors are the built-in exceptions the modelled
    operations can raise ([bytes(...)] on a value outside [range(256)],
    indexing out of range, subscripting [None]) and the failure of the
    bus itself. *)
Inductive exn : Type :=
| RuntimeError (msg : string)
| ValueError
| IndexError
| TypeError
| OSError.

Definition ChecksumError : exn := RuntimeError "CRC Error".
Definition DeviceIdentityError : exn := RuntimeError "SGP30 Not detected".
Definition InvalidBaselineError : exn := RuntimeError "Invalid baseline".

Inductive outcome (A : Type) : Type :=
| Return (a : A)
| Raise (e : exn).
Arguments Return {A} a.
Arguments Raise {A} e.

(** [bytes(command)]: every element must lie in [range(256)]. *)
Definition byteb (b : Z) : bool := (0 <=? b) && (b <? 256).

Definition bytes (l : list Z) : outcome (list Z) :=
  if forallb byteb l then Return l else Raise ValueError.

(** [l[i]] for a non-negative index. *)
Definition getitem (l : list Z) (i : nat) : outcome Z :=
  match nth_error l i with
  | Some x => Return x
  | None => Raise IndexError
  end.

(** ** The bus and the event log *)

(** What the driver needs from [I2CDevice] and [time]: the state of the
    device behind the bus, a write and a read that may fail, and the
    passing of time.  [bus_read n] stands for [read_into] on a fresh
    [bytearray(n)]. *)
Record Transport : Type := {
  bus : Type;
  bus_write : list Z -> bus -> option bus;
  bus_sleep : Q -> bus -> bus;
  bus_read : nat -> bus -> option (list Z * bus)
}.

(** [read_into] fills the buffer it is given: the length is kept and
    the contents are bytes. *)
Definition transport_ok (T : Transport) : Prop :=
  forall n b buf b', bus_read T n b = Some (buf, b') ->
    length buf = n /\ Forall is_byte buf.

Inductive event : Type :=
| Acquire
| Release
| Write (data : list Z)
| Sleep (seconds : Q)
| Read (nbytes : nat).

Record world (T : Transport) : Type := {
  dev : bus T;
  log : list event
}.
Arguments dev {T} w.
Arguments log {T} w.

Section Monad.

Variable T : Transport.

(** State and exceptions: what happened before an exception stays. *)
Definition M (A : Type) : Type := world T -> outcome A * world T.

Definition ret {A} (a : A) : M A := fun w => (Return a, w).

Definition raise {A} (e : exn) : M A := fun w => (Raise e, w).

Definition bind {A B} (c : M A) (k : A -> M B) : M B := fun w =>
  match c w with
  | (Return a, w') => k a w'
  | (Raise e, w') => (Raise e, w')
  end.

Definition lift {A} (o : outcome A) : M A := fun w => (o, w).

Definition emit (e : event) (w : world T) : world T :=
  {| dev := dev w; log := log w ++ [e] |}.

(** [self._device.write(data)] *)
Definition device_write (data : list Z) : M unit := fun w =>
  match bus_write T data (dev w) with
  | Some b => (Return tt, {| dev := b; log := log w ++ [Write data] |})
  | None => (Raise OSError, emit (Write data) w)
  end.

(** [time.sleep(delay)]: a negative length is refused. *)
Definition time_sleep (delay : Q) : M unit := fun w =>
  if Qle_bool 0 delay
  then (Return tt,
        {| dev := bus_sleep T delay (dev w); log := log w ++ [Sleep delay] |})
  else (Raise ValueError, w).

(** [buf = bytearray(n); self._device.read_into(buf)] *)
Definition device_read_into (n : nat) : M (list Z) := fun w =>
  match bus_read T n (dev w) with
  | Some (buf, b) => (Return buf, {| dev := b; log := log w ++ [Read n] |})
  | None => (Raise OSError, emit (Read n) w)
  end.

(** [with self._device:] the device is released on every way out. *)
Definition with_device {A} (body : M A) : M A := fun w =>
  let (r, w') := body (emit Acquire w) in (r, emit Release w').

End Monad.

Arguments ret {T A} a.
Arguments raise {T A} e.
Arguments bind {T A B} c k.
Arguments lift {T A} o.
Arguments emit {T} e w.
Arguments device_write {T} data.
Arguments time_sleep {T} delay.
Arguments device_read_into {T} n.
Arguments with_device {T A} body.

Notation "x <- c ;; k" := (bind c (fun x => k))
  (at level 61, c at next level, right associativity).
Notation "c ;;; k" := (bind c (fun _ => k))
  (at level 61, right associativity).

(** ** The driver *)

(** The body of [for i in range(reply_size)] of
    [sgp_i2c_read_words_from_cmd]; [result] is the list built so far. *)
Fixpoint words_loop (crc_result : list Z) (range : list nat) (result : list Z)
  : outcome (list Z) :=
  match range with
  | [] => Return result
  | i :: range' =>
    match getitem crc_result (3 * i), getitem crc_result (3 * i + 1),
          getitem crc_result (3 * i + 2) with
    | Return w0, Return w1, Return crc =>
      if negb (sensirion_common_generate_crc [w0; w1] =? crc)
      then Raise ChecksumError
      else words_loop crc_result range' (result ++ [Z.lor (Z.shiftl w0 8) w1])
    | Raise e, _, _ => Raise e
    | _, Raise e, _ => Raise e
    | _, _, Raise e => Raise e
    end
  end.

(** The loop of [sgp_set_iaq_baseline] that builds [buffer]. *)
Definition baseline_buffer (co2eq tvoc : Z) : list Z :=
  fold_left
    (fun buffer v =>
       let arr := [Z.shiftr v 8; Z.land v 0xFF] in
       let arr := arr ++ [sensirion_common_generate_crc arr] in
       buffer ++ arr)
    [tvoc; co2eq] [].

(** The object under construction keeps the serial number. *)
Record Adafruit_SGP30 : Type := {
  _serial : option (list Z)
}.

Definition profile : Type := string * list Z * nat * Q.

Section Driver.

Variable T : Transport.

Definition sgp_i2c_read_words_from_cmd
  (command : list Z) (delay : Q) (reply_size : nat) : M T (option (list Z)) :=
  with_device
    (data <- lift (bytes command) ;;
     device_write data ;;;
     time_sleep delay ;;;
     if (reply_size =? 0)%nat then ret None
     else
       crc_result <- device_read_into (reply_size * (SGP30_WORD_LEN + 1)) ;;
       result <- lift (words_loop crc_result (seq 0 reply_size) []) ;;
       ret (Some result)).

Definition sgp_run_profile (p : profile) : M T (option (list Z)) :=
  let '(name, command, signals, delay) := p in
  sgp_i2c_read_words_from_cmd command delay signals.

Definition sgp_iaq_init : M T unit :=
  sgp_run_profile ("iaq_init"%string, [0x20; 0x03], 0%nat, 0.01%Q) ;;;
  ret tt.

Definition sgp_iaq_measure : M T (option (list Z)) :=
  sgp_run_profile ("iaq_measure"%string, [0x20; 0x08], 2%nat, 0.05%Q).

Definition sgp_get_iaq_baseline : M T (option (list Z)) :=
  sgp_run_profile ("iaq_get_baseline"%string, [0x20; 0x15], 2%nat, 0.01%Q).

Definition sgp_set_iaq_baseline (co2eq tvoc : Z) : M T unit :=
  if (co2eq =? 0) && (tvoc =? 0) then raise InvalidBaselineError
  else
    let buffer := baseline_buffer co2eq tvoc in
    sgp_run_profile
      ("iaq_set_baseline"%string, [0x20; 0x1e] ++ buffer, 0%nat, 0.01%Q) ;;;
    ret tt.

(** [featureset[0]] *)
Definition first_word (reply : option (list Z)) : outcome Z :=
  match reply with
  | Some l => getitem l 0
  | None => Raise TypeError
  end.

(** [__init__], on a device already bound to its address. *)
Definition __init__ : M T Adafruit_SGP30 :=
  serial <- sgp_i2c_read_words_from_cmd [0x36; 0x82] 0.01%Q 3 ;;
  featureset <- sgp_i2c_read_words_from_cmd [0x20; 0x2f] 0.01%Q 1 ;;
  w0 <- lift (first_word featureset) ;;
  if negb (w0 =? SGP30_FEATURESET) then raise DeviceIdentityError
  else
    sgp_iaq_init ;;;
    ret {| _serial := serial |}.

End Driver.

Arguments sgp_i2c_read_words_from_cmd {T} command delay reply_size.
Arguments sgp_run_profile {T} p.
Arguments sgp_iaq_init {T}.
Arguments sgp_iaq_measure {T}.
Arguments sgp_get_iaq_baseline {T}.
Arguments sgp_set_iaq_baseline {T} co2eq tvoc.
Arguments __init__ {T}.

(** ** A scripted device

    A device that accepts every write and answers the reads from a
    queue of prepared replies; a read for which no reply of the right
    size is queued fails on the bus. *)
Module Mock.

Definition read (n : nat) (q : list (list Z)) : option (list Z * list (list Z)) :=
  match q with
  | r :: q' =>
    if (length r =? n)%nat && forallb byteb r then Some (r, q') else None
  | [] => None
  end.

Definition transport : Transport := {|
  bus := list (list Z);
  bus_write := fun _ q => Some q;
  bus_sleep := fun _ q => q;
  bus_read := read
|}.

Definition start (replies : list (list Z)) : world transport :=
  Build_world transport replies [].

End Mock.

(** Encoding of a word as the device transmits it. *)
Definition encode_word (w : Z) : list Z :=
  [Z.shiftr w 8; Z.land w 0xFF;
   sensirion_common_generate_crc [Z.shiftr w 8; Z.land w 0xFF]].

(** Reading of the [i]-th 3-byte group of a reply buffer: the word it
    carries and whether its third byte is the checksum of the first two. *)
Definition word_at (buf : list Z) (i : nat) : Z :=
  Z.lor (Z.shiftl (nth (3 * i) buf 0) 8) (nth (3 * i + 1) buf 0).

Definition group_checks (buf : list Z) (i : nat) : bool :=
  sensirion_common_generate_crc [nth (3 * i) buf 0; nth (3 * i + 1) buf 0]
  =? nth (3 * i + 2) buf 0.

(** A checksum byte with bit [k] inverted. *)
Definition flip_bit (k : Z) (c : Z) : Z := Z.lxor c (Z.shiftl 1 k).

(** A reply of several words, as the device transmits it. *)
Definition encode_words (ws : list Z) : list Z := flat_map encode_word ws.

(** ** Facts about the low eight bits *)

Section LowBits.

Lemma land_255_mod (a : Z) : Z.land a 0xFF = a mod 2 ^ 8.
Proof. change 0xFF with (Z.ones 8). apply Z.land_ones. lia. Qed.

Lemma land_255_range (a : Z) : 0 <= Z.land a 0xFF < 256.
Proof. rewrite land_255_mod. change (2 ^ 8) with 256. apply Z.mod_pos_bound. lia. Qed.

Lemma land_255_byte (a : Z) : 0 <= a < 256 -> Z.land a 0xFF = a.
Proof. intros H. rewrite land_255_mod. apply Z.mod_small. exact H. Qed.

Lemma testbit_land_255 (a : Z) (n : Z) :
  Z.testbit (Z.land a 0xFF) n = Z.testbit a n && (0 <=? n) && (n <? 8).
Proof.
  rewrite land_255_mod.
  destruct (Z.ltb_spec n 0) as [Hn | Hn].
  - rewrite !Z.testbit_neg_r by lia. reflexivity.
  - destruct (Z.ltb_spec n 8) as [H8 | H8].
    + rewrite Z.mod_pow2_bits_low by lia.
      replace (0 <=? n) with true by (symmetry; apply Z.leb_le; lia).
      now rewrite !andb_true_r.
    + rewrite Z.mod_pow2_bits_high by lia. now rewrite andb_false_r.
Qed.

Lemma land_255_lxor (a b : Z) :
  Z.land (Z.lxor a b) 0xFF = Z.lxor (Z.land a 0xFF) (Z.land b 0xFF).
Proof.
  apply Z.bits_inj'. intros n Hn.
  rewrite Z.lxor_spec, !testbit_land_255, Z.lxor_spec.
  destruct (Z.testbit a n), (Z.testbit b n), (0 <=? n), (n <? 8); reflexivity.
Qed.

Lemma land_255_shiftl1 (a : Z) :
  Z.land (Z.shiftl (Z.land a 0xFF) 1) 0xFF = Z.land (Z.shiftl a 1) 0xFF.
Proof.
  apply Z.bits_inj'. intros n Hn.
  rewrite !testbit_land_255.
  destruct (Z.ltb_spec n 8) as [H8 | H8]; [ | now rewrite !andb_false_r ].
  rewrite !Z.shiftl_spec by lia. rewrite testbit_land_255.
  destruct (Z.ltb_spec (n - 1) 0) as [H0 | H0].
  - rewrite !Z.testbit_neg_r by lia. reflexivity.
  - replace (0 <=? n - 1) with true by (symmetry; apply Z.leb_le; lia).
    replace (n - 1 <? 8) with true by (symmetry; apply Z.ltb_lt; lia).
    now rewrite !andb_true_r.
Qed.

(** The test [crc & 0x80] of the source looks at bit 7 only. *)
Lemma land_0x80_testbit (a : Z) :
  negb (Z.land a 0x80 =? 0) = Z.testbit a 7.
Proof.
  destruct (Z.testbit a 7) eqn:E.
  - destruct (Z.eqb_spec (Z.land a 0x80) 0) as [H | H]; [ | reflexivity ].
    assert (Z.testbit (Z.land a 0x80) 7 = false) by (rewrite H; apply Z.bits_0).
    rewrite Z.land_spec, E in H0. discriminate.
  - destruct (Z.eqb_spec (Z.land a 0x80) 0) as [H | H]; [ reflexivity | ].
    exfalso. apply H. apply Z.bits_inj'. intros n Hn.
    rewrite Z.land_spec, Z.bits_0.
    destruct (Z.eq_dec n 7) as [-> | Hne]; [ now rewrite E | ].
    change 0x80 with (2 ^ 7). rewrite Z.pow2_bits_false by lia.
    apply andb_false_r.
Qed.

End LowBits.

(** ** The checksum: the source against the specification's wording *)

Section CrcRefinement.

Lemma spec_round_masked (a : Z) : Z.land (spec_round a) 0xFF = spec_round a.
Proof.
  unfold spec_round. destruct (Z.testbit a 7);
    apply land_255_byte, land_255_range.
Qed.

Lemma crc_shift_low (a : Z) : Z.land (crc_shift a) 0xFF = spec_round a.
Proof.
  unfold crc_shift, spec_round, SGP30_CRC8_POLYNOMIAL.
  rewrite land_0x80_testbit. now destruct (Z.testbit a 7).
Qed.

Lemma spec_round_low (a : Z) : spec_round (Z.land a 0xFF) = spec_round a.
Proof.
  unfold spec_round. rewrite testbit_land_255. simpl (0 <=? 7). simpl (7 <? 8).
  rewrite !andb_true_r.
  destruct (Z.testbit a 7).
  - rewrite land_255_lxor, land_255_shiftl1, <- land_255_lxor. reflexivity.
  - apply land_255_shiftl1.
Qed.

Lemma spec_round_congr (a b : Z) :
  Z.land a 0xFF = Z.land b 0xFF -> spec_round a = spec_round b.
Proof. intros H. rewrite <- (spec_round_low a), H. apply spec_round_low. Qed.

Lemma iter_rounds_low (n : nat) (x y : Z) :
  Z.land x 0xFF = Z.land y 0xFF ->
  Z.land (Nat.iter n crc_shift x) 0xFF = Z.land (Nat.iter n spec_round y) 0xFF.
Proof.
  intros H. induction n as [ | n IH ]; simpl.
  - exact H.
  - rewrite crc_shift_low, spec_round_masked. now apply spec_round_congr.
Qed.

Lemma crc_byte_low (a byte : Z) :
  Z.land (crc_byte a byte) 0xFF = spec_byte (Z.land a 0xFF) byte.
Proof.
  unfold crc_byte, spec_byte.
  rewrite (iter_rounds_low 8 _ (Z.lxor (Z.land a 0xFF) byte)).
  - change (Nat.iter 8 spec_round ?z) with (spec_round (Nat.iter 7 spec_round z)).
    apply spec_round_masked.
  - rewrite !land_255_lxor. f_equal.
    symmetry. apply land_255_byte, land_255_range.
Qed.

Lemma fold_crc_low (data : list Z) (a : Z) :
  Z.land (fold_left crc_byte data a) 0xFF
  = fold_left spec_byte data (Z.land a 0xFF).
Proof.
  revert a. induction data as [ | byte data IH ]; intros a; simpl.
  - reflexivity.
  - rewrite IH, crc_byte_low. reflexivity.
Qed.

(** The unmasked loop of the source and the masked loop of the
    specification agree on every input list. *)
Lemma generate_crc_refines_spec (data : list Z) :
  sensirion_common_generate_crc data = spec_crc8 data.
Proof.
  unfold sensirion_common_generate_crc, spec_crc8. apply fold_crc_low.
Qed.

Lemma generate_crc_byte (data : list Z) :
  is_byte (sensirion_common_generate_crc data).
Proof. apply land_255_range. Qed.

End CrcRefinement.

(** C1: on every 2-byte word the checksum of the source (masked once,
    at the end) equals the CRC-8 the specification describes
    (polynomial 0x31, initial value 0xFF, most significant bit first,
    no final XOR, masked to 8 bits at every step). *)
Theorem crc_two_bytes_is_spec_crc8 (hi lo : Z) :
  is_byte hi -> is_byte lo ->
  sensirion_common_generate_crc [hi; lo] = spec_crc8 [hi; lo].
Proof. intros _ _. apply generate_crc_refines_spec. Qed.

Lemma crc_two_bytes_is_spec_crc8_witness :
  is_byte 0xBE /\ is_byte 0xEF /\
  sensirion_common_generate_crc [0xBE; 0xEF] = spec_crc8 [0xBE; 0xEF] /\
  spec_crc8 [0xBE; 0xEF] = 0x92.
Proof.
  assert (Hhi : is_byte 0xBE) by (unfold is_byte; lia).
  assert (Hlo : is_byte 0xEF) by (unfold is_byte; lia).
  split; [ exact Hhi | split; [ exact Hlo | split ] ].
  - exact (crc_two_bytes_is_spec_crc8 0xBE 0xEF Hhi Hlo).
  - reflexivity.
Defined.

(** C10: whatever the input list, of any length, the checksum is a
    value between 0 and 255. *)
Theorem generate_crc_range (data : list Z) :
  0 <= sensirion_common_generate_crc data <= 255.
Proof. pose proof (generate_crc_byte data) as H. unfold is_byte in H. lia. Qed.

(** ** Words and bytes *)

Section Words.

Lemma join_split_word (v : Z) :
  Z.lor (Z.shiftl (Z.shiftr v 8) 8) (Z.land v 0xFF) = v.
Proof.
  apply Z.bits_inj'. intros n Hn.
  rewrite Z.lor_spec, testbit_land_255.
  replace (0 <=? n) with true by (symmetry; apply Z.leb_le; lia).
  rewrite andb_true_r.
  destruct (Z.ltb_spec n 8) as [H8 | H8].
  - rewrite Z.shiftl_spec_low by lia. now rewrite andb_true_r.
  - rewrite Z.shiftl_spec, Z.shiftr_spec by lia.
    replace (n - 8 + 8) with n by lia. now rewrite andb_false_r, orb_false_r.
Qed.

Lemma high_byte_range (v : Z) : is_word16 v -> is_byte (Z.shiftr v 8).
Proof.
  unfold is_word16, is_byte. intros H.
  rewrite Z.shiftr_div_pow2 by lia. change (2 ^ 8) with 256.
  split.
  - apply Z.div_pos; lia.
  - apply Z.div_lt_upper_bound; lia.
Qed.

Lemma low_byte_range (v : Z) : is_byte (Z.land v 0xFF).
Proof. apply land_255_range. Qed.

Lemma join_bytes_range (hi lo : Z) :
  is_byte hi -> is_byte lo -> is_word16 (Z.lor (Z.shiftl hi 8) lo).
Proof.
  unfold is_byte, is_word16. intros Hh Hl.
  assert (Hs : Z.shiftl hi 8 = hi * 256)
    by (rewrite Z.shiftl_mul_pow2 by lia; reflexivity).
  pose proof (Z.add_lor_land (Z.shiftl hi 8) lo) as Hadd.
  assert (0 <= Z.land (Z.shiftl hi 8) lo) by (apply Z.land_nonneg; lia).
  assert (0 <= Z.lor (Z.shiftl hi 8) lo) by (apply Z.lor_nonneg; lia).
  lia.
Qed.

Lemma byteb_spec (b : Z) : byteb b = true <-> is_byte b.
Proof. unfold byteb, is_byte. rewrite andb_true_iff, Z.leb_le, Z.ltb_lt. tauto. Qed.

Lemma bytes_ok (l : list Z) : Forall is_byte l -> bytes l = Return l.
Proof.
  intros H. unfold bytes.
  replace (forallb byteb l) with true; [ reflexivity | ].
  symmetry. apply forallb_forall. intros x Hx. apply byteb_spec.
  rewrite Forall_forall in H. now apply H.
Qed.

Lemma flip_bit_differs (k c : Z) : 0 <= k -> flip_bit k c <> c.
Proof.
  unfold flip_bit. intros Hk Heq.
  apply (f_equal (Z.lxor c)) in Heq.
  rewrite <- Z.lxor_assoc, Z.lxor_nilpotent, Z.lxor_0_l in Heq.
  rename Heq into H0.
  rewrite Z.shiftl_1_l in H0.
  pose proof (Z.pow_pos_nonneg 2 k). lia.
Qed.

End Words.

(** ** The reply parser *)

Section Parser.

Lemma getitem_nth (buf : list Z) (i : nat) :
  (i < length buf)%nat -> getitem buf i = Return (nth i buf 0).
Proof.
  intros H. unfold getitem. now rewrite (nth_error_nth' buf 0 H).
Qed.

(** One turn of the loop on a group that lies inside the buffer. *)
Lemma words_loop_cons (buf : list Z) (i : nat) (range : list nat) (acc : list Z) :
  (3 * i + 2 < length buf)%nat ->
  words_loop buf (i :: range) acc =
  if group_checks buf i
  then words_loop buf range (acc ++ [word_at buf i])
  else Raise ChecksumError.
Proof.
  intros Hlen. cbn [words_loop].
  rewrite !getitem_nth by lia.
  unfold group_checks, word_at.
  now destruct (Z.eqb _ _).
Qed.

(** The loop, from any starting index and with any list already built:
    it appends the words of the groups it visits, or stops with the
    checksum error at the first group that does not check. *)
Lemma words_loop_seq (buf : list Z) (k s : nat) (acc : list Z) :
  (3 * (s + k) <= length buf)%nat ->
  words_loop buf (seq s k) acc =
  if forallb (group_checks buf) (seq s k)
  then Return (acc ++ map (word_at buf) (seq s k))
  else Raise ChecksumError.
Proof.
  revert s acc. induction k as [ | k IH ]; intros s acc Hlen.
  - simpl. now rewrite app_nil_r.
  - cbn [seq forallb map].
    rewrite words_loop_cons by lia.
    destruct (group_checks buf s); cbn [andb].
    + rewrite IH by lia. rewrite <- app_assoc. reflexivity.
    + reflexivity.
Qed.

Lemma words_loop_all (buf : list Z) (n : nat) :
  (3 * n <= length buf)%nat ->
  words_loop buf (seq 0 n) [] =
  if forallb (group_checks buf) (seq 0 n)
  then Return (map (word_at buf) (seq 0 n))
  else Raise ChecksumError.
Proof. intros H. now rewrite words_loop_seq by lia. Qed.

Lemma words_loop_bad_group (buf : list Z) (n i : nat) :
  (3 * n <= length buf)%nat -> (i < n)%nat ->
  group_checks buf i = false ->
  words_loop buf (seq 0 n) [] = Raise ChecksumError.
Proof.
  intros Hlen Hi Hbad. rewrite words_loop_all by exact Hlen.
  replace (forallb (group_checks buf) (seq 0 n)) with false; [ reflexivity | ].
  symmetry. apply not_true_is_false. intros Hall.
  rewrite forallb_forall in Hall.
  rewrite Hall in Hbad; [ discriminate | ]. apply in_seq. lia.
Qed.

Lemma word_at_range (buf : list Z) (n i : nat) :
  length buf = (3 * n)%nat -> Forall is_byte buf -> (i < n)%nat ->
  is_word16 (word_at buf i).
Proof.
  intros Hlen Hb Hi. rewrite Forall_forall in Hb.
  apply join_bytes_range; apply Hb, nth_In; lia.
Qed.

End Parser.

(** ** One transaction on the bus *)

Section Transaction.

Variable T : Transport.

(** The whole of [sgp_i2c_read_words_from_cmd], case by case: what it
    returns or raises, where it leaves the device, and what it did on
    the bus. *)
Lemma transaction_eq (command : list Z) (delay : Q) (n : nat) (w : world T) :
  sgp_i2c_read_words_from_cmd command delay n w =
  if forallb byteb command then
    match bus_write T command (dev w) with
    | None =>
      (Raise OSError,
       Build_world T (dev w) (log w ++ [Acquire; Write command; Release]))
    | Some b1 =>
      if negb (Qle_bool 0 delay) then
        (Raise ValueError,
         Build_world T b1 (log w ++ [Acquire; Write command; Release]))
      else if (n =? 0)%nat then
        (Return None,
         Build_world T (bus_sleep T delay b1)
           (log w ++ [Acquire; Write command; Sleep delay; Release]))
      else
        match bus_read T (n * 3) (bus_sleep T delay b1) with
        | None =>
          (Raise OSError,
           Build_world T (bus_sleep T delay b1)
             (log w ++ [Acquire; Write command; Sleep delay;
                        Read (n * 3); Release]))
        | Some (buf, b2) =>
          (match words_loop buf (seq 0 n) [] with
           | Return result => Return (Some result)
           | Raise e => Raise e
           end,
           Build_world T b2
             (log w ++ [Acquire; Write command; Sleep delay;
                        Read (n * 3); Release]))
        end
    end
  else
    (Raise ValueError, Build_world T (dev w) (log w ++ [Acquire; Release])).
Proof.
  unfold sgp_i2c_read_words_from_cmd, with_device, bind, lift, bytes.
  change (SGP30_WORD_LEN + 1)%nat with 3%nat.
  destruct (forallb byteb command).
  - unfold device_write, time_sleep, device_read_into, ret, emit; cbn [dev log].
    destruct (bus_write T command (dev w)) as [ b1 | ]; cbn [dev log].
    + destruct (Qle_bool 0 delay); cbn [negb dev log].
      * destruct (n =? 0)%nat; cbn [dev log].
        -- now rewrite <- !app_assoc.
        -- destruct (bus_read T (n * 3) (bus_sleep T delay b1)) as [ [buf b2] | ];
             cbn [dev log].
           ++ destruct (words_loop buf (seq 0 n) []); cbn [dev log];
                now rewrite <- !app_assoc.
           ++ now rewrite <- !app_assoc.
      * now rewrite <- !app_assoc.
    + now rewrite <- !app_assoc.
  - unfold emit; cbn [dev log]. now rewrite <- !app_assoc.
Qed.

Lemma transaction_no_reply (command : list Z) (delay : Q) (w : world T) b1 :
  Forall is_byte command ->
  (0 <= delay)%Q ->
  bus_write T command (dev w) = Some b1 ->
  sgp_i2c_read_words_from_cmd command delay 0 w =
  (Return None,
   Build_world T (bus_sleep T delay b1)
     (log w ++ [Acquire; Write command; Sleep delay; Release])).
Proof.
  intros Hb Hd Hw. rewrite transaction_eq, Hw.
  apply bytes_ok in Hb. unfold bytes in Hb.
  destruct (forallb byteb command); [ | discriminate ].
  apply Qle_bool_iff in Hd. now rewrite Hd.
Qed.

Lemma transaction_reply (command : list Z) (delay : Q) (n : nat)
      (w : world T) b1 buf b2 :
  Forall is_byte command ->
  (0 <= delay)%Q ->
  bus_write T command (dev w) = Some b1 ->
  n <> 0%nat ->
  bus_read T (n * 3) (bus_sleep T delay b1) = Some (buf, b2) ->
  sgp_i2c_read_words_from_cmd command delay n w =
  (match words_loop buf (seq 0 n) [] with
   | Return result => Return (Some result)
   | Raise e => Raise e
   end,
   Build_world T b2
     (log w ++ [Acquire; Write command; Sleep delay; Read (n * 3); Release])).
Proof.
  intros Hb Hd Hw Hn Hr. rewrite transaction_eq, Hw, Hr.
  apply bytes_ok in Hb. unfold bytes in Hb.
  destruct (forallb byteb command); [ | discriminate ].
  apply Qle_bool_iff in Hd. rewrite Hd. cbn [negb].
  apply Nat.eqb_neq in Hn. now rewrite Hn.
Qed.

End Transaction.

Lemma mock_transport_ok : transport_ok Mock.transport.
Proof.
  intros n q buf q' H. cbn [bus_read Mock.transport] in H.
  unfold Mock.read in H. destruct q as [ | r q0 ]; [ discriminate | ].
  destruct (length r =? n)%nat eqn:Hlen; [ | discriminate ].
  destruct (forallb byteb r) eqn:Hall; [ | discriminate ].
  cbn [andb] in H. injection H as <- <-. split.
  - now apply Nat.eqb_eq.
  - apply Forall_forall. intros x Hx. apply byteb_spec.
    rewrite forallb_forall in Hall. now apply Hall.
Defined.

(** ** Round trip and corruption *)

(** A list of byte literals. *)
Ltac literal_bytes :=
  repeat (apply Forall_cons; [ unfold is_byte; lia | ]); apply Forall_nil.

Lemma encode_word_bytes (v : Z) : is_word16 v -> Forall is_byte (encode_word v).
Proof.
  intros Hv. unfold encode_word.
  apply Forall_cons; [ now apply high_byte_range | ].
  apply Forall_cons; [ apply low_byte_range | ].
  apply Forall_cons; [ apply generate_crc_byte | apply Forall_nil ].
Qed.

Lemma parse_encode_word (v : Z) :
  words_loop (encode_word v) (seq 0 1) [] = Return [v].
Proof.
  rewrite words_loop_all by (cbn [encode_word length]; lia).
  cbn [seq forallb map]. unfold group_checks, word_at.
  cbn [encode_word nth Nat.mul Nat.add].
  rewrite Z.eqb_refl, join_split_word. reflexivity.
Qed.

(** C2: a 16-bit value [v], sent as the 3-byte group
    [v >> 8, v & 0xFF, crc], is decoded by the reply parser without a
    checksum error and comes back as exactly [v]; this holds for the
    loop of the parser and for a whole transaction whose read delivers
    that group. *)
Theorem encode_then_parse_roundtrip (v : Z) :
  is_word16 v ->
  Forall is_byte (encode_word v) /\
  words_loop (encode_word v) (seq 0 1) [] = Return [v] /\
  forall (T : Transport) (w : world T) command delay b1 b2,
    Forall is_byte command ->
    (0 <= delay)%Q ->
    bus_write T command (dev w) = Some b1 ->
    bus_read T 3 (bus_sleep T delay b1) = Some (encode_word v, b2) ->
    fst (sgp_i2c_read_words_from_cmd command delay 1 w) = Return (Some [v]).
Proof.
  intros Hv. split; [ now apply encode_word_bytes | ].
  split; [ apply parse_encode_word | ].
  intros T w command delay b1 b2 Hb Hd Hw Hr.
  rewrite (transaction_reply T command delay 1 w b1 (encode_word v) b2)
    by (try assumption; lia).
  cbn [fst]. now rewrite parse_encode_word.
Qed.

Lemma encode_then_parse_roundtrip_witness :
  is_word16 0xBEEF /\
  words_loop (encode_word 0xBEEF) (seq 0 1) [] = Return [0xBEEF] /\
  fst (sgp_i2c_read_words_from_cmd [0x20; 0x2f] 0.01%Q 1
         (Mock.start [encode_word 0xBEEF])) = Return (Some [0xBEEF]).
Proof.
  assert (Hv : is_word16 0xBEEF) by (unfold is_word16; lia).
  destruct (encode_then_parse_roundtrip 0xBEEF Hv) as [_ [Hloop Hrun]].
  split; [ exact Hv | split; [ exact Hloop | ] ].
  apply (Hrun Mock.transport (Mock.start [encode_word 0xBEEF])
              [0x20; 0x2f] 0.01%Q
              [encode_word 0xBEEF] []).
  - literal_bytes.
  - discriminate.
  - reflexivity.
  - reflexivity.
Defined.

(** C3: in a reply of [n] groups, if the checksum byte of group [i] is
    the right checksum with one of its 8 bits inverted, the parser
    stops with the checksum error, whatever the two data bytes are and
    whichever bit it is; so does the transaction that read the reply. *)
Theorem flipped_checksum_bit_detected (buf : list Z) (n i : nat) (k : Z) :
  length buf = (3 * n)%nat ->
  (i < n)%nat ->
  0 <= k < 8 ->
  nth (3 * i + 2) buf 0 =
    flip_bit k
      (sensirion_common_generate_crc [nth (3 * i) buf 0; nth (3 * i + 1) buf 0]) ->
  words_loop buf (seq 0 n) [] = Raise ChecksumError /\
  forall (T : Transport) (w : world T) command delay b1 b2,
    Forall is_byte command ->
    (0 <= delay)%Q ->
    bus_write T command (dev w) = Some b1 ->
    bus_read T (n * 3) (bus_sleep T delay b1) = Some (buf, b2) ->
    fst (sgp_i2c_read_words_from_cmd command delay n w) = Raise ChecksumError.
Proof.
  intros Hlen Hi Hk Hflip.
  assert (Hloop : words_loop buf (seq 0 n) [] = Raise ChecksumError).
  { apply (words_loop_bad_group buf n i); [ lia | exact Hi | ].
    unfold group_checks. rewrite Hflip. apply Z.eqb_neq.
    intros Heq. symmetry in Heq. revert Heq. apply flip_bit_differs. lia. }
  split; [ exact Hloop | ].
  intros T w command delay b1 b2 Hb Hd Hw Hr.
  rewrite (transaction_reply T command delay n w b1 buf b2)
    by (try assumption; lia).
  cbn [fst]. now rewrite Hloop.
Qed.

Lemma flipped_checksum_bit_detected_witness :
  words_loop [0xBE; 0xEF; flip_bit 3 0x92] (seq 0 1) [] = Raise ChecksumError /\
  fst (sgp_i2c_read_words_from_cmd [0x20; 0x2f] 0.01%Q 1
         (Mock.start [[0xBE; 0xEF; flip_bit 3 0x92]])) = Raise ChecksumError.
Proof.
  destruct (flipped_checksum_bit_detected [0xBE; 0xEF; flip_bit 3 0x92] 1 0 3)
    as [Hloop Hrun].
  - reflexivity.
  - lia.
  - lia.
  - reflexivity.
  - split; [ exact Hloop | ].
    apply (Hrun Mock.transport (Mock.start [[0xBE; 0xEF; flip_bit 3 0x92]])
                [0x20; 0x2f] 0.01%Q
                [[0xBE; 0xEF; flip_bit 3 0x92]] []).
    + literal_bytes.
    + discriminate.
    + reflexivity.
    + reflexivity.
Defined.

(** ** Shape of a transaction *)

(** C8: for every command of bytes and every delay (zero included, a
    negative one being refused by [time.sleep]), with the write
    accepted by the bus: with a reply count of zero the transaction
    writes, sleeps and returns nothing ([None]) without any read; with
    a reply count [n > 0] it asks the bus for exactly [n * 3] bytes and,
    when the bytes arrive, returns the [n] words of the groups in
    order, each a 16-bit value, provided every group checks (and
    raises the checksum error otherwise). *)
Theorem transaction_reply_shape (T : Transport) (w : world T)
        (command : list Z) (delay : Q) (n : nat) (b1 : bus T) :
  transport_ok T ->
  Forall is_byte command ->
  (0 <= delay)%Q ->
  bus_write T command (dev w) = Some b1 ->
  (n = 0%nat ->
   sgp_i2c_read_words_from_cmd command delay n w =
   (Return None,
    Build_world T (bus_sleep T delay b1)
      (log w ++ [Acquire; Write command; Sleep delay; Release]))) /\
  (n <> 0%nat ->
   log (snd (sgp_i2c_read_words_from_cmd command delay n w)) =
     log w ++ [Acquire; Write command; Sleep delay; Read (n * 3); Release] /\
   forall buf b2,
     bus_read T (n * 3) (bus_sleep T delay b1) = Some (buf, b2) ->
     length buf = (n * 3)%nat /\
     (forallb (group_checks buf) (seq 0 n) = true ->
      exists ws,
        fst (sgp_i2c_read_words_from_cmd command delay n w) = Return (Some ws) /\
        length ws = n /\
        Forall is_word16 ws /\
        forall i, (i < n)%nat -> nth i ws 0 = word_at buf i) /\
     (forallb (group_checks buf) (seq 0 n) = false ->
      fst (sgp_i2c_read_words_from_cmd command delay n w) = Raise ChecksumError)).
Proof.
  intros Hok Hb Hd Hw. split.
  - intros ->. now apply transaction_no_reply.
  - intros Hn. split.
    + rewrite transaction_eq, Hw.
      pose proof (bytes_ok command Hb) as Hbytes. unfold bytes in Hbytes.
      destruct (forallb byteb command); [ | discriminate ].
      pose proof (proj2 (Qle_bool_iff 0 delay) Hd) as Hdb. rewrite Hdb.
      cbn [negb].
      apply Nat.eqb_neq in Hn. rewrite Hn.
      now destruct (bus_read T (n * 3) (bus_sleep T delay b1)) as [ [buf b2] | ].
    + intros buf b2 Hr.
      destruct (Hok _ _ _ _ Hr) as [Hlen Hbuf].
      rewrite (transaction_reply T command delay n w b1 buf b2) by assumption.
      cbn [fst]. rewrite words_loop_all by lia.
      split; [ exact Hlen | split ]; intros Hall; rewrite Hall.
      * exists (map (word_at buf) (seq 0 n)). split; [ reflexivity | ].
        split; [ now rewrite length_map, length_seq | ].
        split.
        -- apply Forall_forall. intros x Hx.
           apply in_map_iff in Hx. destruct Hx as [i [<- Hi]].
           apply in_seq in Hi.
           apply (word_at_range buf n i); [ lia | exact Hbuf | lia ].
        -- intros i Hi.
           rewrite (nth_indep _ 0 (word_at buf 0))
             by (rewrite length_map, length_seq; exact Hi).
           rewrite map_nth, seq_nth by exact Hi. reflexivity.
      * reflexivity.
Qed.

Lemma transaction_reply_shape_witness :
  sgp_i2c_read_words_from_cmd [0x20; 0x03] 0.01%Q 0 (Mock.start []) =
    (Return None,
     Build_world Mock.transport []
       [Acquire; Write [0x20; 0x03]; Sleep 0.01%Q; Release]) /\
  log (snd (sgp_i2c_read_words_from_cmd [0x20; 0x15] 0.01%Q 2
              (Mock.start [encode_word 0x8973 ++ encode_word 0x0042]))) =
    [Acquire; Write [0x20; 0x15]; Sleep 0.01%Q; Read 6; Release].
Proof.
  split.
  - apply (transaction_reply_shape Mock.transport (Mock.start [])
             [0x20; 0x03] 0.01%Q 0 []).
    + exact mock_transport_ok.
    + literal_bytes.
    + discriminate.
    + reflexivity.
    + reflexivity.
  - apply (transaction_reply_shape Mock.transport
             (Mock.start [encode_word 0x8973 ++ encode_word 0x0042])
             [0x20; 0x15] 0.01%Q 2
             [encode_word 0x8973 ++ encode_word 0x0042]).
    + exact mock_transport_ok.
    + literal_bytes.
    + discriminate.
    + reflexivity.
    + discriminate.
Defined.

(** ** The operations of the driver *)

Section Operations.

Variable T : Transport.

Lemma baseline_buffer_eq (co2eq tvoc : Z) :
  baseline_buffer co2eq tvoc = encode_word tvoc ++ encode_word co2eq.
Proof. unfold baseline_buffer, encode_word. cbn [fold_left app]. reflexivity. Qed.

Lemma baseline_command_bytes (co2eq tvoc : Z) :
  is_word16 co2eq -> is_word16 tvoc ->
  Forall is_byte ([0x20; 0x1e] ++ baseline_buffer co2eq tvoc).
Proof.
  intros Hc Ht. rewrite baseline_buffer_eq.
  apply Forall_app. split; [ literal_bytes | ].
  apply Forall_app. split; now apply encode_word_bytes.
Qed.

Lemma iaq_init_accepted (w : world T) (b : bus T) :
  bus_write T [0x20; 0x03] (dev w) = Some b ->
  sgp_iaq_init w =
  (Return tt,
   Build_world T (bus_sleep T 0.01%Q b)
     (log w ++ [Acquire; Write [0x20; 0x03]; Sleep 0.01%Q; Release])).
Proof.
  intros Hw. unfold sgp_iaq_init, sgp_run_profile, bind.
  rewrite (transaction_no_reply T [0x20; 0x03] 0.01%Q w b)
    by (try assumption; try literal_bytes; discriminate).
  reflexivity.
Qed.

(** Without a read phase the only ways out of [sgp_set_iaq_baseline]
    are the return, the rejected baseline, a value that is no byte and
    a failure of the bus. *)
Lemma set_baseline_cases (co2eq tvoc : Z) (w : world T) :
  sgp_set_iaq_baseline co2eq tvoc w =
  if (co2eq =? 0) && (tvoc =? 0) then (Raise InvalidBaselineError, w)
  else
    let command := [0x20; 0x1e] ++ baseline_buffer co2eq tvoc in
    if forallb byteb command then
      match bus_write T command (dev w) with
      | None =>
        (Raise OSError,
         Build_world T (dev w) (log w ++ [Acquire; Write command; Release]))
      | Some b1 =>
        (Return tt,
         Build_world T (bus_sleep T 0.01%Q b1)
           (log w ++ [Acquire; Write command; Sleep 0.01%Q; Release]))
      end
    else
      (Raise ValueError, Build_world T (dev w) (log w ++ [Acquire; Release])).
Proof.
  unfold sgp_set_iaq_baseline.
  destruct ((co2eq =? 0) && (tvoc =? 0)); [ reflexivity | ].
  unfold sgp_run_profile, bind. rewrite transaction_eq. cbv zeta.
  change (negb (Qle_bool 0 0.01)) with false. cbv iota.
  destruct (forallb byteb ([0x20; 0x1e] ++ baseline_buffer co2eq tvoc));
    [ | reflexivity ].
  now destruct (bus_write T ([0x20; 0x1e] ++ baseline_buffer co2eq tvoc) (dev w)).
Qed.

End Operations.

(** C6: [sgp_set_iaq_baseline] raises the invalid-baseline error exactly
    when both arguments are zero, and then nothing is sent; for every
    other pair of 16-bit values the command is handed to the bus, and
    the call returns as soon as the bus accepts the write. *)
Theorem set_baseline_invalid_iff_both_zero
        (T : Transport) (w : world T) (co2eq tvoc : Z) :
  (fst (sgp_set_iaq_baseline co2eq tvoc w) = Raise InvalidBaselineError
   <-> co2eq = 0 /\ tvoc = 0) /\
  (co2eq = 0 /\ tvoc = 0 -> snd (sgp_set_iaq_baseline co2eq tvoc w) = w) /\
  (is_word16 co2eq -> is_word16 tvoc -> ~ (co2eq = 0 /\ tvoc = 0) ->
   (exists rest,
      log (snd (sgp_set_iaq_baseline co2eq tvoc w)) =
      log w ++ Acquire
            :: Write ([0x20; 0x1e] ++ baseline_buffer co2eq tvoc) :: rest) /\
   forall b1,
     bus_write T ([0x20; 0x1e] ++ baseline_buffer co2eq tvoc) (dev w) = Some b1 ->
     fst (sgp_set_iaq_baseline co2eq tvoc w) = Return tt).
Proof.
  rewrite set_baseline_cases.
  destruct ((co2eq =? 0) && (tvoc =? 0)) eqn:Hz.
  - apply andb_true_iff in Hz. rewrite !Z.eqb_eq in Hz.
    split; [ | split ].
    + cbn [fst]. tauto.
    + reflexivity.
    + intros _ _ Hnz. contradiction.
  - assert (Hnz : ~ (co2eq = 0 /\ tvoc = 0)).
    { intros [H1 H2]. apply andb_false_iff in Hz.
      rewrite !Z.eqb_neq in Hz. tauto. }
    cbv zeta. split; [ | split ].
    + split; [ | tauto ].
      destruct (forallb byteb _); [ destruct (bus_write T _ _) | ];
        cbn [fst]; discriminate.
    + tauto.
    + intros Hc Ht _.
      pose proof (bytes_ok _ (baseline_command_bytes co2eq tvoc Hc Ht)) as Hb.
      unfold bytes in Hb.
      destruct (forallb byteb _); [ | discriminate ].
      split.
      * destruct (bus_write T _ _); cbn [snd log]; eexists; reflexivity.
      * intros b1 ->. reflexivity.
Qed.

Lemma set_baseline_invalid_iff_both_zero_witness :
  fst (sgp_set_iaq_baseline 0x8973 0x0042 (Mock.start [])) = Return tt /\
  (fst (sgp_set_iaq_baseline 0 0 (Mock.start [])) = Raise InvalidBaselineError
   <-> 0 = 0 /\ 0 = 0).
Proof.
  split.
  - destruct (set_baseline_invalid_iff_both_zero
                Mock.transport (Mock.start []) 0x8973 0x0042)
      as [_ [_ Hsent]].
    destruct Hsent as [_ Hret].
    + unfold is_word16; lia.
    + unfold is_word16; lia.
    + intros [H _]; discriminate H.
    + apply (Hret []). reflexivity.
  - apply (set_baseline_invalid_iff_both_zero Mock.transport (Mock.start []) 0 0).
Defined.

(** C4, as the source has it: for 16-bit values not both zero the
    payload has 6 bytes, the word of TVOC then the word of CO2eq, each
    as high byte, low byte, checksum of the two; the 8 bytes written are
    the opcode 0x20 0x1e followed by the payload; the sleep is of 0.01
    seconds (10 ms) and there is no read; [sgp_set_iaq_baseline 0x8973
    0x0042] has the payload [0x00, 0x42, crc, 0x89, 0x73, crc]. *)
Theorem set_baseline_sends_six_byte_payload
        (T : Transport) (w : world T) (co2eq tvoc : Z) (b1 : bus T) :
  is_word16 co2eq -> is_word16 tvoc -> ~ (co2eq = 0 /\ tvoc = 0) ->
  bus_write T ([0x20; 0x1e] ++ baseline_buffer co2eq tvoc) (dev w) = Some b1 ->
  baseline_buffer co2eq tvoc =
    [Z.shiftr tvoc 8; Z.land tvoc 0xFF;
     sensirion_common_generate_crc [Z.shiftr tvoc 8; Z.land tvoc 0xFF];
     Z.shiftr co2eq 8; Z.land co2eq 0xFF;
     sensirion_common_generate_crc [Z.shiftr co2eq 8; Z.land co2eq 0xFF]] /\
  length (baseline_buffer co2eq tvoc) = 6%nat /\
  length ([0x20; 0x1e] ++ baseline_buffer co2eq tvoc) = 8%nat /\
  Forall is_byte (baseline_buffer co2eq tvoc) /\
  sgp_set_iaq_baseline co2eq tvoc w =
    (Return tt,
     Build_world T (bus_sleep T 0.01%Q b1)
       (log w ++ [Acquire; Write ([0x20; 0x1e] ++ baseline_buffer co2eq tvoc);
                  Sleep 0.01%Q; Release])) /\
  (0.01 == 10 # 1000)%Q /\
  baseline_buffer 0x8973 0x0042 =
    [0x00; 0x42; sensirion_common_generate_crc [0x00; 0x42];
     0x89; 0x73; sensirion_common_generate_crc [0x89; 0x73]].
Proof.
  intros Hc Ht Hnz Hw.
  split; [ now rewrite baseline_buffer_eq | ].
  split; [ now rewrite baseline_buffer_eq | ].
  split; [ now rewrite baseline_buffer_eq | ].
  split.
  { rewrite baseline_buffer_eq. apply Forall_app.
    split; now apply encode_word_bytes. }
  split; [ | split; reflexivity ].
  rewrite set_baseline_cases. cbv zeta. rewrite Hw.
  replace ((co2eq =? 0) && (tvoc =? 0)) with false.
  - pose proof (bytes_ok _ (baseline_command_bytes co2eq tvoc Hc Ht)) as Hb.
    unfold bytes in Hb.
    destruct (forallb byteb _); [ reflexivity | discriminate ].
  - symmetry. apply not_true_is_false. intros Hz.
    apply andb_true_iff in Hz. rewrite !Z.eqb_eq in Hz. tauto.
Qed.

Lemma set_baseline_sends_six_byte_payload_witness :
  sgp_set_iaq_baseline 0x8973 0x0042 (Mock.start []) =
  (Return tt,
   Build_world Mock.transport []
     [Acquire; Write [0x20; 0x1e; 0x00; 0x42; 0xDE; 0x89; 0x73; 0xCA];
      Sleep 0.01%Q; Release]).
Proof.
  apply (set_baseline_sends_six_byte_payload
           Mock.transport (Mock.start []) 0x8973 0x0042 []).
  - unfold is_word16; lia.
  - unfold is_word16; lia.
  - intros [H _]; discriminate H.
  - reflexivity.
Defined.

(** C4, as the claim words it, fails: no payload of 8 bytes follows the
    opcode in what [sgp_set_iaq_baseline 0x8973 0x0042] writes. *)
Lemma set_baseline_payload_not_eight_bytes :
  ~ exists payload,
      length payload = 8%nat /\
      In (Write ([0x20; 0x1e] ++ payload))
         (log (snd (sgp_set_iaq_baseline 0x8973 0x0042 (Mock.start [])))).
Proof.
  intros [payload [Hlen Hin]].
  vm_compute in Hin.
  destruct Hin as [H | [H | [H | [H | []]]]]; try discriminate H.
  injection H as <-. discriminate Hlen.
Qed.

(** C7: [sgp_iaq_measure] writes the bytes 0x20 0x08, sleeps 0.05
    seconds (50 ms), reads 6 bytes, that is 2 words, and returns the
    two words in the order of the reply, CO2eq then TVOC; on a device
    whose reply is [0x01, 0x23, crc, 0x00, 0x10, crc] it returns
    [0x0123, 0x0010]. *)
Theorem measure_returns_reply_words
        (T : Transport) (w : world T) (b1 b2 : bus T) (h0 l0 h1 l1 : Z) :
  bus_write T [0x20; 0x08] (dev w) = Some b1 ->
  bus_read T 6 (bus_sleep T 0.05%Q b1) =
    Some ([h0; l0; sensirion_common_generate_crc [h0; l0];
           h1; l1; sensirion_common_generate_crc [h1; l1]], b2) ->
  sgp_iaq_measure w =
    (Return (Some [Z.lor (Z.shiftl h0 8) l0; Z.lor (Z.shiftl h1 8) l1]),
     Build_world T b2
       (log w ++ [Acquire; Write [0x20; 0x08]; Sleep 0.05%Q; Read 6; Release])) /\
  (0.05 == 50 # 1000)%Q /\
  fst (sgp_iaq_measure
         (Mock.start [[0x01; 0x23; sensirion_common_generate_crc [0x01; 0x23];
                       0x00; 0x10; sensirion_common_generate_crc [0x00; 0x10]]]))
  = Return (Some [0x0123; 0x0010]).
Proof.
  intros Hw Hr. split; [ | split; reflexivity ].
  unfold sgp_iaq_measure, sgp_run_profile.
  rewrite (transaction_reply T [0x20; 0x08] 0.05%Q 2 w b1 _ b2)
    by (try eassumption; try literal_bytes; discriminate).
  rewrite words_loop_all by (cbn [length]; lia).
  cbn [seq forallb map]. unfold group_checks, word_at.
  cbn [nth Nat.mul Nat.add]. rewrite !Z.eqb_refl. reflexivity.
Qed.

Lemma measure_returns_reply_words_witness :
  sgp_iaq_measure
    (Mock.start [[0x01; 0x23; sensirion_common_generate_crc [0x01; 0x23];
                  0x00; 0x10; sensirion_common_generate_crc [0x00; 0x10]]]) =
  (Return (Some [Z.lor (Z.shiftl 0x01 8) 0x23; Z.lor (Z.shiftl 0x00 8) 0x10]),
   Build_world Mock.transport []
     [Acquire; Write [0x20; 0x08]; Sleep 0.05%Q; Read 6; Release]).
Proof.
  apply (measure_returns_reply_words Mock.transport
           (Mock.start [[0x01; 0x23; sensirion_common_generate_crc [0x01; 0x23];
                         0x00; 0x10; sensirion_common_generate_crc [0x00; 0x10]]])
           [[0x01; 0x23; sensirion_common_generate_crc [0x01; 0x23];
             0x00; 0x10; sensirion_common_generate_crc [0x00; 0x10]]]
           [] 0x01 0x23 0x00 0x10).
  - reflexivity.
  - reflexivity.
Defined.

(** ** Construction *)

(** C5: once the serial number has been read and the feature-set
    transaction has delivered the word [fs]: if [fs] is not 0x0020 the
    construction raises the identity error and no object is returned;
    if it is 0x0020 the construction goes on to the init command and,
    the bus accepting that write, returns the object.  So, with the init
    write accepted, an object is returned exactly when [fs = 0x0020]. *)
Theorem construction_checks_feature_set
        (T : Transport) (w w1 w2 : world T) (serial : option (list Z)) (fs : Z) :
  sgp_i2c_read_words_from_cmd [0x36; 0x82] 0.01%Q 3 w = (Return serial, w1) ->
  sgp_i2c_read_words_from_cmd [0x20; 0x2f] 0.01%Q 1 w1 = (Return (Some [fs]), w2) ->
  (fs <> 0x0020 -> __init__ w = (Raise DeviceIdentityError, w2)) /\
  (fs = 0x0020 ->
   forall b3, bus_write T [0x20; 0x03] (dev w2) = Some b3 ->
     __init__ w =
     (Return {| _serial := serial |},
      Build_world T (bus_sleep T 0.01%Q b3)
        (log w2 ++ [Acquire; Write [0x20; 0x03]; Sleep 0.01%Q; Release]))) /\
  (forall b3, bus_write T [0x20; 0x03] (dev w2) = Some b3 ->
     ((exists obj, fst (__init__ w) = Return obj) <-> fs = 0x0020)).
Proof.
  intros Hserial Hfs.
  assert (Hbad : fs <> 0x0020 -> __init__ w = (Raise DeviceIdentityError, w2)).
  { intros Hne. unfold __init__, bind. rewrite Hserial, Hfs.
    unfold lift, first_word, getitem. cbn [nth_error].
    apply Z.eqb_neq in Hne. unfold SGP30_FEATURESET. rewrite Hne. reflexivity. }
  assert (Hgood : fs = 0x0020 ->
            forall b3, bus_write T [0x20; 0x03] (dev w2) = Some b3 ->
            __init__ w =
            (Return {| _serial := serial |},
             Build_world T (bus_sleep T 0.01%Q b3)
               (log w2 ++ [Acquire; Write [0x20; 0x03]; Sleep 0.01%Q; Release]))).
  { intros -> b3 Hw3. unfold __init__, bind. rewrite Hserial, Hfs.
    unfold lift, first_word, getitem. cbn [nth_error].
    unfold SGP30_FEATURESET. rewrite Z.eqb_refl. cbn [negb].
    rewrite (iaq_init_accepted T w2 b3 Hw3). reflexivity. }
  split; [ exact Hbad | split; [ exact Hgood | ] ].
  intros b3 Hw3. split.
  - intros [obj Hobj]. destruct (Z.eq_dec fs 0x0020) as [Heq | Hne];
      [ exact Heq | ].
    rewrite (Hbad Hne) in Hobj. discriminate Hobj.
  - intros Heq. eexists. rewrite (Hgood Heq b3 Hw3). reflexivity.
Qed.

Lemma construction_checks_feature_set_witness :
  __init__ (Mock.start [encode_word 1 ++ encode_word 2 ++ encode_word 3;
                        encode_word 0x0010]) =
  (Raise DeviceIdentityError,
   Build_world Mock.transport []
     [Acquire; Write [0x36; 0x82]; Sleep 0.01%Q; Read 9; Release;
      Acquire; Write [0x20; 0x2f]; Sleep 0.01%Q; Read 3; Release]) /\
  fst (__init__ (Mock.start [encode_word 1 ++ encode_word 2 ++ encode_word 3;
                             encode_word 0x0020])) =
  Return {| _serial := Some [1; 2; 3] |}.
Proof.
  split.
  - destruct (construction_checks_feature_set Mock.transport
                (Mock.start [encode_word 1 ++ encode_word 2 ++ encode_word 3;
                             encode_word 0x0010])
                (Build_world Mock.transport [encode_word 0x0010]
                   [Acquire; Write [0x36; 0x82]; Sleep 0.01%Q; Read 9; Release])
                (Build_world Mock.transport []
                   [Acquire; Write [0x36; 0x82]; Sleep 0.01%Q; Read 9; Release;
                    Acquire; Write [0x20; 0x2f]; Sleep 0.01%Q; Read 3; Release])
                (Some [1; 2; 3]) 0x0010) as [Hbad _].
    + reflexivity.
    + reflexivity.
    + apply Hbad. discriminate.
  - destruct (construction_checks_feature_set Mock.transport
                (Mock.start [encode_word 1 ++ encode_word 2 ++ encode_word 3;
                             encode_word 0x0020])
                (Build_world Mock.transport [encode_word 0x0020]
                   [Acquire; Write [0x36; 0x82]; Sleep 0.01%Q; Read 9; Release])
                (Build_world Mock.transport []
                   [Acquire; Write [0x36; 0x82]; Sleep 0.01%Q; Read 9; Release;
                    Acquire; Write [0x20; 0x2f]; Sleep 0.01%Q; Read 3; Release])
                (Some [1; 2; 3]) 0x0020) as [_ [Hgood _]].
    + reflexivity.
    + reflexivity.
    + rewrite (Hgood eq_refl [] eq_refl). reflexivity.
Defined.

(** C9: the serial number is not validated, but its reply is parsed
    like any other: if in the 9 bytes read for it one of the three
    groups carries a checksum byte that is not the checksum of its two
    data bytes, the construction raises the checksum error right after
    that read; no object is returned and nothing more is sent. *)
Theorem construction_checks_serial_crc
        (T : Transport) (w : world T) (b1 b2 : bus T) (buf : list Z) (i : nat) :
  transport_ok T ->
  bus_write T [0x36; 0x82] (dev w) = Some b1 ->
  bus_read T 9 (bus_sleep T 0.01%Q b1) = Some (buf, b2) ->
  (i < 3)%nat ->
  nth (3 * i + 2) buf 0 <>
    sensirion_common_generate_crc [nth (3 * i) buf 0; nth (3 * i + 1) buf 0] ->
  __init__ w =
  (Raise ChecksumError,
   Build_world T b2
     (log w ++ [Acquire; Write [0x36; 0x82]; Sleep 0.01%Q; Read 9; Release])).
Proof.
  intros Hok Hw Hr Hi Hbad.
  destruct (Hok _ _ _ _ Hr) as [Hlen _].
  unfold __init__, bind.
  rewrite (transaction_reply T [0x36; 0x82] 0.01%Q 3 w b1 buf b2)
    by (try eassumption; try literal_bytes; discriminate).
  rewrite (words_loop_bad_group buf 3 i); [ reflexivity | lia | exact Hi | ].
  unfold group_checks. apply Z.eqb_neq. intros Heq. apply Hbad. now symmetry.
Qed.

Lemma construction_checks_serial_crc_witness :
  __init__ (Mock.start [encode_word 1 ++ [0x00; 0x02; 0x00] ++ encode_word 3;
                        encode_word 0x0020]) =
  (Raise ChecksumError,
   Build_world Mock.transport [encode_word 0x0020]
     [Acquire; Write [0x36; 0x82]; Sleep 0.01%Q; Read 9; Release]).
Proof.
  apply (construction_checks_serial_crc Mock.transport
           (Mock.start [encode_word 1 ++ [0x00; 0x02; 0x00] ++ encode_word 3;
                        encode_word 0x0020])
           [encode_word 1 ++ [0x00; 0x02; 0x00] ++ encode_word 3;
            encode_word 0x0020]
           [encode_word 0x0020]
           (encode_word 1 ++ [0x00; 0x02; 0x00] ++ encode_word 3) 1).
  - exact mock_transport_ok.
  - reflexivity.
  - reflexivity.
  - lia.
  - vm_compute. discriminate.
Defined.

(** ** The checksum as an affine map *)

Section CrcAffine.

Ltac by_bits :=
  apply Z.bits_inj'; intros ?n ?Hn;
  repeat (rewrite testbit_land_255 || rewrite Z.lxor_spec
          || rewrite Z.shiftl_spec by lia);
  repeat match goal with
         | |- context [Z.testbit ?a ?i] => destruct (Z.testbit a i)
         end;
  repeat match goal with
         | |- context [Z.leb ?a ?b] => destruct (Z.leb a b)
         | |- context [Z.ltb ?a ?b] => destruct (Z.ltb a b)
         end;
  reflexivity.

Lemma spec_round_lxor (a b : Z) :
  spec_round (Z.lxor a b) = Z.lxor (spec_round a) (spec_round b).
Proof.
  unfold spec_round. rewrite Z.lxor_spec.
  destruct (Z.testbit a 7), (Z.testbit b 7); cbn [xorb]; by_bits.
Qed.

Lemma iter_spec_round_lxor (n : nat) (a b : Z) :
  Nat.iter n spec_round (Z.lxor a b)
  = Z.lxor (Nat.iter n spec_round a) (Nat.iter n spec_round b).
Proof.
  induction n as [ | n IH ]; simpl; [ reflexivity | ].
  now rewrite IH, spec_round_lxor.
Qed.

Lemma spec_byte_lxor (a1 a2 b1 b2 : Z) :
  spec_byte (Z.lxor a1 a2) (Z.lxor b1 b2)
  = Z.lxor (spec_byte a1 b1) (spec_byte a2 b2).
Proof.
  unfold spec_byte. rewrite <- iter_spec_round_lxor. f_equal. by_bits.
Qed.

Lemma spec_crc8_pair (h l : Z) :
  spec_crc8 [h; l] = spec_byte (spec_byte 0xFF h) l.
Proof. reflexivity. Qed.

(** The checksum of a word changed by an error pattern is the checksum
    of the word changed by a value that depends on the pattern alone. *)
Lemma crc_error_pattern (h l eh el : Z) :
  sensirion_common_generate_crc [Z.lxor h eh; Z.lxor l el]
  = Z.lxor (sensirion_common_generate_crc [h; l])
           (spec_byte (spec_byte 0 eh) el).
Proof.
  rewrite !generate_crc_refines_spec, !spec_crc8_pair.
  rewrite <- spec_byte_lxor. f_equal.
  rewrite <- spec_byte_lxor. reflexivity.
Qed.

Lemma lxor_cancel_l (a b : Z) : Z.lxor a (Z.lxor a b) = b.
Proof. now rewrite <- Z.lxor_assoc, Z.lxor_nilpotent, Z.lxor_0_l. Qed.

Lemma single_bit_patterns (k : Z) :
  0 <= k < 8 ->
  spec_byte (spec_byte 0 (Z.shiftl 1 k)) 0 <> 0 /\
  spec_byte (spec_byte 0 0) (Z.shiftl 1 k) <> 0.
Proof.
  intros Hk.
  assert (Hcases : k = 0 \/ k = 1 \/ k = 2 \/ k = 3 \/
                   k = 4 \/ k = 5 \/ k = 6 \/ k = 7) by lia.
  destruct Hcases as [-> | [-> | [-> | [-> | [-> | [-> | [-> | ->]]]]]]];
    split; vm_compute; discriminate.
Qed.

End CrcAffine.

(** X1 (checksum): the checksum is affine over XOR on 2-byte words: the
    checksum of the bitwise XOR of two words is the XOR of their
    checksums and of the checksum of the zero word. *)
Theorem generate_crc_affine (h l eh el : Z) :
  sensirion_common_generate_crc [Z.lxor h eh; Z.lxor l el]
  = Z.lxor (Z.lxor (sensirion_common_generate_crc [h; l])
                   (sensirion_common_generate_crc [eh; el]))
           (sensirion_common_generate_crc [0; 0]).
Proof.
  rewrite crc_error_pattern.
  rewrite <- (Z.lxor_0_l eh) at 2. rewrite <- (Z.lxor_0_l el) at 2.
  rewrite (crc_error_pattern 0 0 eh el).
  rewrite Z.lxor_assoc. f_equal.
  rewrite (Z.lxor_comm (sensirion_common_generate_crc [0; 0])).
  rewrite Z.lxor_assoc, Z.lxor_nilpotent, Z.lxor_0_r. reflexivity.
Qed.

(** X2 (parser): a single inverted bit in either data byte of a group,
    the checksum byte being the one of the original data, is always
    caught: the parser stops with the checksum error, and so does the
    transaction that read the reply. *)
Theorem flipped_data_bit_detected
        (buf : list Z) (n i : nat) (k hi lo : Z) :
  length buf = (3 * n)%nat ->
  (i < n)%nat ->
  0 <= k < 8 ->
  (nth (3 * i) buf 0 = flip_bit k hi /\ nth (3 * i + 1) buf 0 = lo) \/
  (nth (3 * i) buf 0 = hi /\ nth (3 * i + 1) buf 0 = flip_bit k lo) ->
  nth (3 * i + 2) buf 0 = sensirion_common_generate_crc [hi; lo] ->
  words_loop buf (seq 0 n) [] = Raise ChecksumError /\
  forall (T : Transport) (w : world T) command delay b1 b2,
    Forall is_byte command ->
    (0 <= delay)%Q ->
    bus_write T command (dev w) = Some b1 ->
    bus_read T (n * 3) (bus_sleep T delay b1) = Some (buf, b2) ->
    fst (sgp_i2c_read_words_from_cmd command delay n w) = Raise ChecksumError.
Proof.
  intros Hlen Hi Hk Hdata Hcrc.
  destruct (single_bit_patterns k Hk) as [Hhi Hlo].
  assert (Hloop : words_loop buf (seq 0 n) [] = Raise ChecksumError).
  { apply (words_loop_bad_group buf n i); [ lia | exact Hi | ].
    unfold group_checks. rewrite Hcrc.
    destruct Hdata as [[-> ->] | [-> ->]];
      apply Z.eqb_neq; intros Heq; unfold flip_bit in Heq.
    - rewrite <- (Z.lxor_0_r lo) in Heq at 1.
      rewrite crc_error_pattern in Heq.
      apply Hhi. apply (f_equal (Z.lxor (sensirion_common_generate_crc [hi; lo]))) in Heq.
      now rewrite lxor_cancel_l, Z.lxor_nilpotent in Heq.
    - rewrite <- (Z.lxor_0_r hi) in Heq at 1.
      rewrite crc_error_pattern in Heq.
      apply Hlo. apply (f_equal (Z.lxor (sensirion_common_generate_crc [hi; lo]))) in Heq.
      now rewrite lxor_cancel_l, Z.lxor_nilpotent in Heq. }
  split; [ exact Hloop | ].
  intros T w command delay b1 b2 Hb Hd Hw Hr.
  rewrite (transaction_reply T command delay n w b1 buf b2)
    by (try assumption; lia).
  cbn [fst]. now rewrite Hloop.
Qed.

Lemma flipped_data_bit_detected_witness :
  words_loop [flip_bit 5 0xBE; 0xEF; 0x92] (seq 0 1) [] = Raise ChecksumError /\
  fst (sgp_i2c_read_words_from_cmd [0x20; 0x08] 0.05%Q 1
         (Mock.start [[flip_bit 5 0xBE; 0xEF; 0x92]])) = Raise ChecksumError.
Proof.
  destruct (flipped_data_bit_detected
              [flip_bit 5 0xBE; 0xEF; 0x92] 1 0 5 0xBE 0xEF)
    as [Hloop Hrun].
  - reflexivity.
  - lia.
  - lia.
  - left. split; reflexivity.
  - reflexivity.
  - split; [ exact Hloop | ].
    apply (Hrun Mock.transport (Mock.start [[flip_bit 5 0xBE; 0xEF; 0x92]])
                [0x20; 0x08] 0.05%Q
                [[flip_bit 5 0xBE; 0xEF; 0x92]] []).
    + literal_bytes.
    + discriminate.
    + reflexivity.
    + reflexivity.
Defined.

(** ** Replies of several words *)

Section Replies.

Lemma encode_words_cons (v : Z) (ws : list Z) :
  encode_words (v :: ws) =
  Z.shiftr v 8 :: Z.land v 0xFF
    :: sensirion_common_generate_crc [Z.shiftr v 8; Z.land v 0xFF]
    :: encode_words ws.
Proof. reflexivity. Qed.

Lemma length_encode_words (ws : list Z) :
  length (encode_words ws) = (3 * length ws)%nat.
Proof.
  induction ws as [ | v ws IH ]; [ reflexivity | ].
  rewrite encode_words_cons. cbn [length]. rewrite IH. lia.
Qed.

Lemma nth_encode_words (ws : list Z) (i j : nat) :
  (i < length ws)%nat ->
  nth (3 * i + j) (encode_words ws) 0
  = nth j (encode_word (nth i ws 0) ++ encode_words (skipn (S i) ws)) 0.
Proof.
  revert i. induction ws as [ | v ws IH ]; intros i Hi; cbn [length] in Hi.
  - lia.
  - destruct i as [ | i ].
    + reflexivity.
    + replace (3 * S i + j)%nat with (S (S (S (3 * i + j)))) by lia.
      rewrite encode_words_cons. cbn [nth skipn].
      rewrite IH by lia. reflexivity.
Qed.

Lemma group_checks_encode_words (ws : list Z) (i : nat) :
  (i < length ws)%nat -> group_checks (encode_words ws) i = true.
Proof.
  intros Hi. unfold group_checks.
  rewrite <- (Nat.add_0_r (3 * i)) at 1.
  rewrite !nth_encode_words by exact Hi.
  unfold encode_word. cbn [app nth]. apply Z.eqb_refl.
Qed.

Lemma word_at_encode_words (ws : list Z) (i : nat) :
  (i < length ws)%nat -> word_at (encode_words ws) i = nth i ws 0.
Proof.
  intros Hi. unfold word_at.
  rewrite <- (Nat.add_0_r (3 * i)) at 1.
  rewrite !nth_encode_words by exact Hi.
  unfold encode_word. cbn [app nth]. apply join_split_word.
Qed.

Lemma encode_words_bytes (ws : list Z) :
  Forall is_word16 ws -> Forall is_byte (encode_words ws).
Proof.
  induction 1 as [ | v ws Hv _ IH ]; [ apply Forall_nil | ].
  change (encode_words (v :: ws)) with (encode_word v ++ encode_words ws).
  apply Forall_app. split; [ now apply encode_word_bytes | exact IH ].
Qed.

Lemma parse_encode_words (ws : list Z) :
  words_loop (encode_words ws) (seq 0 (length ws)) [] = Return ws.
Proof.
  rewrite words_loop_all by (rewrite length_encode_words; lia).
  replace (forallb (group_checks (encode_words ws)) (seq 0 (length ws)))
    with true.
  - f_equal. apply (nth_ext _ _ 0 0).
    + now rewrite length_map, length_seq.
    + intros i Hi. rewrite length_map, length_seq in Hi.
      rewrite (nth_indep _ 0 (word_at (encode_words ws) 0))
        by (now rewrite length_map, length_seq).
      rewrite map_nth, seq_nth by exact Hi.
      now apply word_at_encode_words.
  - symmetry. apply forallb_forall. intros i Hi. apply in_seq in Hi.
    apply group_checks_encode_words. lia.
Qed.

Lemma parse_two_words (w0 w1 : Z) :
  words_loop (encode_words [w0; w1]) (seq 0 2) [] = Return [w0; w1].
Proof. exact (parse_encode_words [w0; w1]). Qed.

Lemma parse_three_words (w0 w1 w2 : Z) :
  words_loop (encode_words [w0; w1; w2]) (seq 0 3) [] = Return [w0; w1; w2].
Proof. exact (parse_encode_words [w0; w1; w2]). Qed.

End Replies.

(** X3 (parser): round trip for replies of any length: the words
    [ws], each sent as high byte, low byte, checksum, are decoded by
    the parser as exactly [ws], in order; a transaction that asks for
    [length ws] words and reads those bytes returns [ws]. *)
Theorem encode_then_parse_words_roundtrip (ws : list Z) :
  ws <> [] ->
  Forall is_word16 ws ->
  Forall is_byte (encode_words ws) /\
  length (encode_words ws) = (length ws * 3)%nat /\
  words_loop (encode_words ws) (seq 0 (length ws)) [] = Return ws /\
  forall (T : Transport) (w : world T) command delay b1 b2,
    Forall is_byte command ->
    (0 <= delay)%Q ->
    bus_write T command (dev w) = Some b1 ->
    bus_read T (length ws * 3) (bus_sleep T delay b1)
      = Some (encode_words ws, b2) ->
    fst (sgp_i2c_read_words_from_cmd command delay (length ws) w)
    = Return (Some ws).
Proof.
  intros Hne Hws.
  split; [ now apply encode_words_bytes | ].
  split; [ rewrite length_encode_words; lia | ].
  split; [ apply parse_encode_words | ].
  intros T w command delay b1 b2 Hb Hd Hw Hr.
  rewrite (transaction_reply T command delay (length ws) w b1
             (encode_words ws) b2); try assumption.
  - cbn [fst]. now rewrite parse_encode_words.
  - destruct ws; [ congruence | discriminate ].
Qed.

Lemma encode_then_parse_words_roundtrip_witness :
  fst (sgp_i2c_read_words_from_cmd [0x36; 0x82] 0.01%Q 3
         (Mock.start [encode_words [0x0000; 0x0123; 0xFFFF]]))
  = Return (Some [0x0000; 0x0123; 0xFFFF]).
Proof.
  assert (Hne : [0x0000; 0x0123; 0xFFFF] <> []) by discriminate.
  assert (Hws : Forall is_word16 [0x0000; 0x0123; 0xFFFF])
    by (repeat (apply Forall_cons; [ unfold is_word16; lia | ]);
        apply Forall_nil).
  destruct (encode_then_parse_words_roundtrip [0x0000; 0x0123; 0xFFFF] Hne Hws)
    as [_ [_ [_ Hrun]]].
  apply (Hrun Mock.transport
              (Mock.start [encode_words [0x0000; 0x0123; 0xFFFF]])
              [0x36; 0x82] 0.01%Q
              [encode_words [0x0000; 0x0123; 0xFFFF]] []).
  - literal_bytes.
  - discriminate.
  - reflexivity.
  - reflexivity.
Defined.

(** ** The baseline payload *)

Lemma parse_baseline_buffer (co2eq tvoc : Z) :
  words_loop (baseline_buffer co2eq tvoc) (seq 0 2) [] = Return [tvoc; co2eq].
Proof.
  rewrite baseline_buffer_eq.
  rewrite <- (app_nil_r (encode_word co2eq)).
  apply (parse_two_words tvoc co2eq).
Qed.

(** X4 (set baseline against the parser): what [sgp_set_iaq_baseline]
    builds is a well-formed reply of two groups for the driver's own
    parser: both checksums pass and the words read back are the TVOC
    value then the CO2eq value; so two calls build the same payload
    only for the same pair of values. *)
Theorem baseline_buffer_decodes (co2eq tvoc co2eq' tvoc' : Z) :
  words_loop (baseline_buffer co2eq tvoc) (seq 0 2) [] = Return [tvoc; co2eq] /\
  (baseline_buffer co2eq tvoc = baseline_buffer co2eq' tvoc' ->
   co2eq = co2eq' /\ tvoc = tvoc').
Proof.
  split; [ apply parse_baseline_buffer | ].
  intros Heq.
  pose proof (parse_baseline_buffer co2eq tvoc) as H1.
  rewrite Heq, parse_baseline_buffer in H1.
  injection H1 as -> ->. split; reflexivity.
Qed.

(** X5 (value of a word): for two bytes, the word the parser builds
    with shift and OR is [256 * high + low], so a reply group that
    checks decodes to that number. *)
Theorem parsed_word_value (hi lo : Z) :
  is_byte hi -> is_byte lo ->
  Z.lor (Z.shiftl hi 8) lo = 256 * hi + lo /\
  words_loop [hi; lo; sensirion_common_generate_crc [hi; lo]] (seq 0 1) []
  = Return [256 * hi + lo].
Proof.
  intros Hh Hl.
  assert (Hval : Z.lor (Z.shiftl hi 8) lo = 256 * hi + lo).
  { assert (Hland : Z.land (Z.shiftl hi 8) lo = 0).
    { apply Z.bits_inj'. intros n Hn. rewrite Z.land_spec, Z.bits_0.
      destruct (Z.ltb_spec n 8) as [H8 | H8].
      - now rewrite Z.shiftl_spec_low by lia.
      - rewrite <- (land_255_byte lo Hl), testbit_land_255.
        replace (n <? 8) with false by (symmetry; apply Z.ltb_ge; lia).
        now rewrite !andb_false_r. }
    rewrite <- (Z.lxor_lor _ _ Hland), <- (Z.add_nocarry_lxor _ _ Hland).
    rewrite Z.shiftl_mul_pow2 by lia. change (2 ^ 8) with 256. lia. }
  split; [ exact Hval | ].
  rewrite words_loop_all by (cbn [length]; lia).
  cbn [seq forallb map]. unfold group_checks, word_at.
  cbn [nth Nat.mul Nat.add]. rewrite Z.eqb_refl, Hval. reflexivity.
Qed.

Lemma parsed_word_value_witness :
  Z.lor (Z.shiftl 0x01 8) 0x23 = 256 * 0x01 + 0x23 /\
  words_loop [0x01; 0x23; sensirion_common_generate_crc [0x01; 0x23]] (seq 0 1) []
  = Return [256 * 0x01 + 0x23].
Proof.
  apply (parsed_word_value 0x01 0x23); unfold is_byte; lia.
Defined.

(** ** What a transaction does on the bus *)

(** X6 (transaction): whatever the command, the delay, the reply count
    and the answer of the device, and whether the transaction returns
    or raises, what it adds to the log starts with the acquisition of
    the device and ends with its release; in between the device is
    neither acquired nor released, only the given command is written,
    only the given delay is slept, and a read happens only for a
    non-zero reply count and asks for three bytes per word. *)
Theorem transaction_is_bracketed
        (T : Transport) (w : world T) (command : list Z) (delay : Q) (n : nat) :
  exists mid,
    log (snd (sgp_i2c_read_words_from_cmd command delay n w))
    = log w ++ Acquire :: mid ++ [Release] /\
    ~ In Acquire mid /\ ~ In Release mid /\
    (forall data, In (Write data) mid -> data = command) /\
    (forall d, In (Sleep d) mid -> d = delay) /\
    (forall m, In (Read m) mid -> n <> 0%nat /\ m = (n * 3)%nat).
Proof.
  assert (Hmid : forall mid : list event,
            (forall m, In (Read m) mid -> n <> 0%nat /\ m = (n * 3)%nat) ->
            Forall (fun e => e = Write command \/ e = Sleep delay
                             \/ exists m, e = Read m) mid ->
            forall tail, tail = log w ++ Acquire :: mid ++ [Release] ->
            exists mid0,
              tail = log w ++ Acquire :: mid0 ++ [Release] /\
              ~ In Acquire mid0 /\ ~ In Release mid0 /\
              (forall data, In (Write data) mid0 -> data = command) /\
              (forall d, In (Sleep d) mid0 -> d = delay) /\
              (forall m, In (Read m) mid0 -> n <> 0%nat /\ m = (n * 3)%nat)).
  { intros mid Hread Hall tail ->. exists mid.
    rewrite Forall_forall in Hall.
    split; [ reflexivity | ].
    split; [ intros H; destruct (Hall _ H) as [E | [E | [m E]]]; discriminate E | ].
    split; [ intros H; destruct (Hall _ H) as [E | [E | [m E]]]; discriminate E | ].
    split; [ intros data H; destruct (Hall _ H) as [E | [E | [m E]]];
             congruence | ].
    split; [ intros d H; destruct (Hall _ H) as [E | [E | [m E]]];
             congruence | ].
    exact Hread. }
  rewrite transaction_eq.
  destruct (forallb byteb command).
  - destruct (bus_write T command (dev w)) as [ b1 | ].
    + destruct (Qle_bool 0 delay); cbn [negb].
      * destruct (n =? 0)%nat eqn:Hn.
        -- apply (Hmid [Write command; Sleep delay]); [ | | reflexivity ].
           ++ intros m [H | [H | []]]; discriminate H.
           ++ repeat constructor; tauto.
        -- apply Nat.eqb_neq in Hn.
           assert (Hshape :
                     exists mid0,
                       log w ++ [Acquire; Write command; Sleep delay;
                                 Read (n * 3); Release]
                       = log w ++ Acquire :: mid0 ++ [Release] /\
                       ~ In Acquire mid0 /\ ~ In Release mid0 /\
                       (forall data, In (Write data) mid0 -> data = command) /\
                       (forall d, In (Sleep d) mid0 -> d = delay) /\
                       (forall m, In (Read m) mid0 ->
                                  n <> 0%nat /\ m = (n * 3)%nat)).
           { apply (Hmid [Write command; Sleep delay; Read (n * 3)]);
               [ | | reflexivity ].
             - intros m [H | [H | [H | []]]]; try discriminate H.
               split; [ exact Hn | congruence ].
             - apply Forall_cons; [ tauto | ].
               apply Forall_cons; [ tauto | ].
               apply Forall_cons; [ right; right; eexists; reflexivity | ].
               apply Forall_nil. }
           now destruct (bus_read T (n * 3) (bus_sleep T delay b1))
             as [ [buf b2] | ].
      * apply (Hmid [Write command]); [ | | reflexivity ].
        -- intros m [H | []]; discriminate H.
        -- repeat constructor; tauto.
    + apply (Hmid [Write command]); [ | | reflexivity ].
      * intros m [H | []]; discriminate H.
      * repeat constructor; tauto.
  - apply (Hmid []); [ | | reflexivity ].
    + intros m [].
    + apply Forall_nil.
Qed.

(** ** Values that do not fit a word *)

Lemma high_byte_iff (v : Z) : byteb (Z.shiftr v 8) = true <-> is_word16 v.
Proof.
  rewrite byteb_spec. unfold is_byte, is_word16.
  rewrite Z.shiftr_div_pow2 by lia. change (2 ^ 8) with 256.
  pose proof (Z.div_mod v 256) as Hdm.
  pose proof (Z.mod_pos_bound v 256). lia.
Qed.

Lemma encode_word_check (v : Z) :
  forallb byteb (encode_word v) = true <-> is_word16 v.
Proof.
  split.
  - intros H. rewrite forallb_forall in H.
    apply high_byte_iff, H. unfold encode_word. apply in_eq.
  - intros Hv. apply forallb_forall. intros x Hx. apply byteb_spec.
    pose proof (encode_word_bytes v Hv) as Hall.
    rewrite Forall_forall in Hall. now apply Hall.
Qed.

Lemma baseline_command_check (co2eq tvoc : Z) :
  forallb byteb ([0x20; 0x1e] ++ baseline_buffer co2eq tvoc) = true
  <-> is_word16 co2eq /\ is_word16 tvoc.
Proof.
  rewrite baseline_buffer_eq, !forallb_app, !andb_true_iff, !encode_word_check.
  split.
  - intros [_ [Ht Hc]]. now split.
  - intros [Hc Ht]. split; [ reflexivity | now split ].
Qed.

(** X7 (set baseline, values out of range): a baseline value below 0
    or above 65535 (the pair not being zero, zero) makes
    [sgp_set_iaq_baseline] raise [ValueError] when the command is turned
    into bytes, and this is the only way it raises that error; the
    device is then acquired and released, and nothing is written. *)
Theorem set_baseline_rejects_wide_values
        (T : Transport) (w : world T) (co2eq tvoc : Z) :
  (fst (sgp_set_iaq_baseline co2eq tvoc w) = Raise ValueError
   <-> ~ (co2eq = 0 /\ tvoc = 0) /\ ~ (is_word16 co2eq /\ is_word16 tvoc)) /\
  (fst (sgp_set_iaq_baseline co2eq tvoc w) = Raise ValueError ->
   snd (sgp_set_iaq_baseline co2eq tvoc w)
   = Build_world T (dev w) (log w ++ [Acquire; Release])).
Proof.
  rewrite set_baseline_cases.
  destruct ((co2eq =? 0) && (tvoc =? 0)) eqn:Hz.
  - apply andb_true_iff in Hz. rewrite !Z.eqb_eq in Hz.
    cbn [fst]. split.
    + split; [ discriminate | tauto ].
    + discriminate.
  - assert (Hnz : ~ (co2eq = 0 /\ tvoc = 0)).
    { intros [H1 H2]. apply andb_false_iff in Hz.
      rewrite !Z.eqb_neq in Hz. tauto. }
    cbv zeta. pose proof (baseline_command_check co2eq tvoc) as Hchk.
    destruct (forallb byteb ([0x20; 0x1e] ++ baseline_buffer co2eq tvoc)).
    + assert (Hin : is_word16 co2eq /\ is_word16 tvoc) by now apply Hchk.
      destruct (bus_write T _ _); cbn [fst];
        (split; [ split; [ discriminate | tauto ] | discriminate ]).
    + cbn [fst snd]. split; [ | reflexivity ].
      split; [ | reflexivity ].
      intros _. split; [ exact Hnz | ].
      intros Hin. apply Hchk in Hin. discriminate Hin.
Qed.

Lemma set_baseline_rejects_wide_values_witness :
  sgp_set_iaq_baseline 0x10000 0 (Mock.start [])
  = (Raise ValueError, Build_world Mock.transport [] [Acquire; Release]).
Proof.
  destruct (set_baseline_rejects_wide_values
              Mock.transport (Mock.start []) 0x10000 0) as [Hiff Hlog].
  assert (Hfst : fst (sgp_set_iaq_baseline 0x10000 0 (Mock.start []))
                 = Raise ValueError).
  { apply Hiff. split.
    - intros [H _]. discriminate H.
    - intros [[_ H] _]. lia. }
  specialize (Hlog Hfst).
  rewrite (surjective_pairing (sgp_set_iaq_baseline 0x10000 0 (Mock.start []))).
  rewrite Hfst, Hlog. reflexivity.
Defined.

(** ** The other operations *)

Lemma iaq_init_cases (T : Transport) (w : world T) :
  sgp_iaq_init w =
  match bus_write T [0x20; 0x03] (dev w) with
  | Some b =>
    (Return tt,
     Build_world T (bus_sleep T 0.01%Q b)
       (log w ++ [Acquire; Write [0x20; 0x03]; Sleep 0.01%Q; Release]))
  | None =>
    (Raise OSError,
     Build_world T (dev w) (log w ++ [Acquire; Write [0x20; 0x03]; Release]))
  end.
Proof.
  unfold sgp_iaq_init, sgp_run_profile, bind. rewrite transaction_eq.
  change (forallb byteb [0x20; 0x03]) with true.
  change (negb (Qle_bool 0 0.01)) with false. cbv iota.
  now destruct (bus_write T [0x20; 0x03] (dev w)).
Qed.

(** X8 (init of the algorithm): [sgp_iaq_init] returns exactly when the
    bus accepts the write of 0x20 0x03, after a sleep of 0.01 seconds,
    and raises [OSError] exactly when the bus refuses it; in neither
    case does it read from the device, and it always releases it. *)
Theorem iaq_init_outcomes (T : Transport) (w : world T) :
  (fst (sgp_iaq_init w) = Return tt <->
   exists b, bus_write T [0x20; 0x03] (dev w) = Some b /\
             snd (sgp_iaq_init w) =
             Build_world T (bus_sleep T 0.01%Q b)
               (log w ++ [Acquire; Write [0x20; 0x03]; Sleep 0.01%Q; Release])) /\
  (fst (sgp_iaq_init w) = Raise OSError <->
   bus_write T [0x20; 0x03] (dev w) = None) /\
  (fst (sgp_iaq_init w) = Return tt \/ fst (sgp_iaq_init w) = Raise OSError) /\
  (exists mid, log (snd (sgp_iaq_init w)) = log w ++ Acquire :: mid ++ [Release] /\
               forall m, ~ In (Read m) mid).
Proof.
  rewrite iaq_init_cases.
  destruct (bus_write T [0x20; 0x03] (dev w)) as [ b | ]; cbn [fst snd log].
  - split; [ split; [ intros _; now exists b | reflexivity ] | ].
    split; [ split; discriminate | ].
    split; [ now left | ].
    exists [Write [0x20; 0x03]; Sleep 0.01%Q]. split; [ reflexivity | ].
    intros m [H | [H | []]]; discriminate H.
  - split; [ split; [ discriminate | intros [b [H _]]; discriminate H ] | ].
    split; [ split; reflexivity | ].
    split; [ now right | ].
    exists [Write [0x20; 0x03]]. split; [ reflexivity | ].
    intros m [H | []]; discriminate H.
Qed.

(** X9 (reading the baseline): [sgp_get_iaq_baseline] writes 0x20 0x15,
    sleeps 0.01 seconds, reads 6 bytes and returns the two words of the
    reply, in the order of the reply. *)
Theorem get_baseline_returns_reply_words
        (T : Transport) (w : world T) (b1 b2 : bus T) (w0 w1 : Z) :
  bus_write T [0x20; 0x15] (dev w) = Some b1 ->
  bus_read T 6 (bus_sleep T 0.01%Q b1) = Some (encode_words [w0; w1], b2) ->
  sgp_get_iaq_baseline w =
    (Return (Some [w0; w1]),
     Build_world T b2
       (log w ++ [Acquire; Write [0x20; 0x15]; Sleep 0.01%Q; Read 6; Release])).
Proof.
  intros Hw Hr.
  unfold sgp_get_iaq_baseline, sgp_run_profile.
  rewrite (transaction_reply T [0x20; 0x15] 0.01%Q 2 w b1 _ b2)
    by (try eassumption; try literal_bytes; discriminate).
  rewrite parse_two_words. reflexivity.
Qed.

Lemma get_baseline_returns_reply_words_witness :
  sgp_get_iaq_baseline (Mock.start [encode_words [0x8973; 0x0042]]) =
  (Return (Some [0x8973; 0x0042]),
   Build_world Mock.transport []
     [Acquire; Write [0x20; 0x15]; Sleep 0.01%Q; Read 6; Release]).
Proof.
  apply (get_baseline_returns_reply_words Mock.transport
           (Mock.start [encode_words [0x8973; 0x0042]])
           [encode_words [0x8973; 0x0042]] [] 0x8973 0x0042).
  - reflexivity.
  - reflexivity.
Defined.

(** ** Every way out *)

Section Outcomes.

Variable T : Transport.
Hypothesis Hok : transport_ok T.

(** A transaction with a reply returns as many 16-bit words as asked
    for, or raises the checksum error or the error of the bus. *)
Lemma transaction_outcomes (command : list Z) (delay : Q) (n : nat) (w : world T) :
  Forall is_byte command -> (0 <= delay)%Q -> n <> 0%nat ->
  (exists ws,
     fst (sgp_i2c_read_words_from_cmd command delay n w) = Return (Some ws) /\
     length ws = n /\ Forall is_word16 ws) \/
  fst (sgp_i2c_read_words_from_cmd command delay n w) = Raise ChecksumError \/
  fst (sgp_i2c_read_words_from_cmd command delay n w) = Raise OSError.
Proof.
  intros Hb Hd Hn. rewrite transaction_eq.
  pose proof (bytes_ok command Hb) as Hbytes. unfold bytes in Hbytes.
  destruct (forallb byteb command); [ | discriminate ].
  destruct (bus_write T command (dev w)) as [ b1 | ]; [ | now right; right ].
  rewrite (proj2 (Qle_bool_iff 0 delay) Hd). cbn [negb].
  rewrite (proj2 (Nat.eqb_neq n 0) Hn).
  destruct (bus_read T (n * 3) (bus_sleep T delay b1)) as [ [buf b2] | ] eqn:Hr;
    [ | now right; right ].
  destruct (Hok _ _ _ _ Hr) as [Hlen Hbuf].
  cbn [fst]. rewrite words_loop_all by lia.
  destruct (forallb (group_checks buf) (seq 0 n)); [ left | now right; left ].
  exists (map (word_at buf) (seq 0 n)).
  split; [ reflexivity | ].
  split; [ now rewrite length_map, length_seq | ].
  apply Forall_forall. intros x Hx.
  apply in_map_iff in Hx. destruct Hx as [i [<- Hi]]. apply in_seq in Hi.
  apply (word_at_range buf n i); [ lia | exact Hbuf | lia ].
Qed.

End Outcomes.

(** X10 (measure, every outcome): on a bus whose reads fill the buffer
    with bytes, [sgp_iaq_measure] either returns exactly two 16-bit
    words, or raises the checksum error, or raises the error of the
    bus; it never returns [None], a shorter or longer list, or another
    error. *)
Theorem measure_outcomes (T : Transport) (w : world T) :
  transport_ok T ->
  (exists co2eq tvoc,
     fst (sgp_iaq_measure w) = Return (Some [co2eq; tvoc]) /\
     is_word16 co2eq /\ is_word16 tvoc) \/
  fst (sgp_iaq_measure w) = Raise ChecksumError \/
  fst (sgp_iaq_measure w) = Raise OSError.
Proof.
  intros Hok. unfold sgp_iaq_measure, sgp_run_profile.
  destruct (transaction_outcomes T Hok [0x20; 0x08] 0.05%Q 2 w)
    as [[ws [Hr [Hlen Hws]]] | Herr];
    [ literal_bytes | discriminate | discriminate | | now right ].
  left.
  destruct ws as [ | x [ | y [ | z ws ] ] ]; try discriminate Hlen.
  exists x, y. split; [ exact Hr | ].
  inversion Hws as [ | ? ? Hx Hrest ]; subst.
  inversion Hrest as [ | ? ? Hy _ ]; subst. now split.
Qed.

Lemma measure_outcomes_witness :
  (exists co2eq tvoc,
     fst (sgp_iaq_measure (Mock.start [encode_words [400; 7]]))
     = Return (Some [co2eq; tvoc]) /\
     is_word16 co2eq /\ is_word16 tvoc) \/
  fst (sgp_iaq_measure (Mock.start [encode_words [400; 7]])) = Raise ChecksumError \/
  fst (sgp_iaq_measure (Mock.start [encode_words [400; 7]])) = Raise OSError.
Proof.
  exact (measure_outcomes Mock.transport (Mock.start [encode_words [400; 7]])
           mock_transport_ok).
Defined.

(** X11 (construction, the whole sequence): when the device answers the
    serial query with three well-formed groups and the feature-set
    query with the word 0x0020, and accepts the three writes,
    [__init__] returns the object holding the three serial words in
    order, after exactly three transactions: serial (9 bytes read),
    feature set (3 bytes read), init (no read). *)
Theorem construction_full_sequence
        (T : Transport) (w : world T) (b1 b2 b3 b4 b5 : bus T) (s0 s1 s2 : Z) :
  bus_write T [0x36; 0x82] (dev w) = Some b1 ->
  bus_read T 9 (bus_sleep T 0.01%Q b1) = Some (encode_words [s0; s1; s2], b2) ->
  bus_write T [0x20; 0x2f] b2 = Some b3 ->
  bus_read T 3 (bus_sleep T 0.01%Q b3) = Some (encode_word 0x0020, b4) ->
  bus_write T [0x20; 0x03] b4 = Some b5 ->
  __init__ w =
  (Return {| _serial := Some [s0; s1; s2] |},
   Build_world T (bus_sleep T 0.01%Q b5)
     (log w ++
      [Acquire; Write [0x36; 0x82]; Sleep 0.01%Q; Read 9; Release;
       Acquire; Write [0x20; 0x2f]; Sleep 0.01%Q; Read 3; Release;
       Acquire; Write [0x20; 0x03]; Sleep 0.01%Q; Release])).
Proof.
  intros Hw1 Hr1 Hw2 Hr2 Hw3.
  unfold __init__, bind.
  rewrite (transaction_reply T [0x36; 0x82] 0.01%Q 3 w b1 _ b2)
    by (try eassumption; try literal_bytes; discriminate).
  rewrite parse_three_words.
  rewrite (transaction_reply T [0x20; 0x2f] 0.01%Q 1 _ b3 _ b4)
    by (try eassumption; try literal_bytes; discriminate).
  rewrite parse_encode_word.
  unfold lift, first_word, getitem. cbn [nth_error].
  change (negb (0x0020 =? SGP30_FEATURESET)) with false. cbv beta iota.
  rewrite iaq_init_accepted with (b := b5) by exact Hw3.
  cbn [log]. rewrite <- !app_assoc. reflexivity.
Qed.

Lemma construction_full_sequence_witness :
  __init__ (Mock.start [encode_words [0x0000; 0x0123; 0xABCD];
                        encode_word 0x0020])
  = (Return {| _serial := Some [0x0000; 0x0123; 0xABCD] |},
     Build_world Mock.transport []
       [Acquire; Write [0x36; 0x82]; Sleep 0.01%Q; Read 9; Release;
        Acquire; Write [0x20; 0x2f]; Sleep 0.01%Q; Read 3; Release;
        Acquire; Write [0x20; 0x03]; Sleep 0.01%Q; Release]).
Proof.
  exact (construction_full_sequence Mock.transport
           (Mock.start [encode_words [0x0000; 0x0123; 0xABCD];
                        encode_word 0x0020])
           [encode_words [0x0000; 0x0123; 0xABCD]; encode_word 0x0020]
           [encode_word 0x0020] [encode_word 0x0020] [] []
           0x0000 0x0123 0xABCD
           eq_refl eq_refl eq_refl eq_refl eq_refl).
Defined.

(** X12 (construction, feature-set reply corrupted): once the serial
    number has been read, a feature-set reply whose checksum byte is
    not the checksum of its two data bytes makes [__init__] raise the
    checksum error (not the identity error, whatever the data bytes
    are); the init command is never sent and no object is returned. *)
Theorem construction_checks_feature_set_crc
        (T : Transport) (w w1 : world T) (serial : option (list Z))
        (b3 b4 : bus T) (buf : list Z) :
  transport_ok T ->
  sgp_i2c_read_words_from_cmd [0x36; 0x82] 0.01%Q 3 w = (Return serial, w1) ->
  bus_write T [0x20; 0x2f] (dev w1) = Some b3 ->
  bus_read T 3 (bus_sleep T 0.01%Q b3) = Some (buf, b4) ->
  nth 2 buf 0 <> sensirion_common_generate_crc [nth 0 buf 0; nth 1 buf 0] ->
  __init__ w =
  (Raise ChecksumError,
   Build_world T b4
     (log w1 ++ [Acquire; Write [0x20; 0x2f]; Sleep 0.01%Q; Read 3; Release])).
Proof.
  intros Hok Hserial Hw Hr Hbad.
  destruct (Hok _ _ _ _ Hr) as [Hlen _].
  unfold __init__, bind. rewrite Hserial.
  rewrite (transaction_reply T [0x20; 0x2f] 0.01%Q 1 w1 b3 buf b4)
    by (try eassumption; try literal_bytes; discriminate).
  rewrite (words_loop_bad_group buf 1 0); [ reflexivity | lia | lia | ].
  unfold group_checks. cbn [Nat.mul Nat.add].
  apply Z.eqb_neq. intros Heq. apply Hbad. now symmetry.
Qed.

Lemma construction_checks_feature_set_crc_witness :
  __init__ (Mock.start [encode_words [1; 2; 3]; [0x00; 0x20; 0x00]]) =
  (Raise ChecksumError,
   Build_world Mock.transport []
     ([Acquire; Write [0x36; 0x82]; Sleep 0.01%Q; Read 9; Release]
      ++ [Acquire; Write [0x20; 0x2f]; Sleep 0.01%Q; Read 3; Release])).
Proof.
  apply (construction_checks_feature_set_crc Mock.transport
           (Mock.start [encode_words [1; 2; 3]; [0x00; 0x20; 0x00]])
           (Build_world Mock.transport [[0x00; 0x20; 0x00]]
              [Acquire; Write [0x36; 0x82]; Sleep 0.01%Q; Read 9; Release])
           (Some [1; 2; 3])
           [[0x00; 0x20; 0x00]] [] [0x00; 0x20; 0x00]).
  - exact mock_transport_ok.
  - reflexivity.
  - reflexivity.
  - reflexivity.
  - vm_compute. discriminate.
Defined.

(** X13 (construction, every outcome): on a bus whose reads fill the
    buffer with bytes, [__init__] either returns an object whose
    serial number is exactly three 16-bit words, or raises the
    checksum error, the identity error or the error of the bus; no
    index or type error can come out of [featureset[0]]. *)
Theorem construction_outcomes (T : Transport) (w : world T) :
  transport_ok T ->
  (exists s0 s1 s2,
     fst (__init__ w) = Return {| _serial := Some [s0; s1; s2] |} /\
     is_word16 s0 /\ is_word16 s1 /\ is_word16 s2) \/
  fst (__init__ w) = Raise ChecksumError \/
  fst (__init__ w) = Raise DeviceIdentityError \/
  fst (__init__ w) = Raise OSError.
Proof.
  intros Hok. unfold __init__, bind.
  pose proof (transaction_outcomes T Hok [0x36; 0x82] 0.01%Q 3 w) as H1.
  destruct (sgp_i2c_read_words_from_cmd [0x36; 0x82] 0.01%Q 3 w) as [r1 w1].
  cbn [fst] in H1.
  destruct H1 as [[ws [-> [Hlen Hws]]] | [-> | ->]];
    [ literal_bytes | discriminate | discriminate | | now right; left
    | now right; right; right ].
  pose proof (transaction_outcomes T Hok [0x20; 0x2f] 0.01%Q 1 w1) as H2.
  destruct (sgp_i2c_read_words_from_cmd [0x20; 0x2f] 0.01%Q 1 w1) as [r2 w2].
  cbn [fst] in H2.
  destruct H2 as [[fsl [-> [Hlen2 _]]] | [-> | ->]];
    [ literal_bytes | discriminate | discriminate | | now right; left
    | now right; right; right ].
  destruct fsl as [ | fs [ | ? ? ] ]; try discriminate Hlen2.
  unfold lift, first_word, getitem. cbn [nth_error].
  destruct (negb (fs =? SGP30_FEATURESET)); [ now right; right; left | ].
  rewrite iaq_init_cases.
  destruct (bus_write T [0x20; 0x03] (dev w2)); [ | now right; right; right ].
  left. cbn [fst].
  destruct ws as [ | s0 [ | s1 [ | s2 [ | ? ? ] ] ] ]; try discriminate Hlen.
  exists s0, s1, s2. split; [ reflexivity | ].
  inversion Hws as [ | ? ? H0 Hr0 ]; subst.
  inversion Hr0 as [ | ? ? H1 Hr1 ]; subst.
  inversion Hr1 as [ | ? ? H2 _ ]; subst. tauto.
Qed.

Lemma construction_outcomes_witness :
  (exists s0 s1 s2,
     fst (__init__ (Mock.start [encode_words [1; 2; 3]; encode_word 0x0020]))
     = Return {| _serial := Some [s0; s1; s2] |} /\
     is_word16 s0 /\ is_word16 s1 /\ is_word16 s2) \/
  fst (__init__ (Mock.start [encode_words [1; 2; 3]; encode_word 0x0020]))
  = Raise ChecksumError \/
  fst (__init__ (Mock.start [encode_words [1; 2; 3]; encode_word 0x0020]))
  = Raise DeviceIdentityError \/
  fst (__init__ (Mock.start [encode_words [1; 2; 3]; encode_word 0x0020]))
  = Raise OSError.
Proof.
  exact (construction_outcomes Mock.transport
           (Mock.start [encode_words [1; 2; 3]; encode_word 0x0020])
           mock_transport_ok).
Defined.
